(** * Short-form video pipeline: a shallow embedding of [pipeline.py]

    The program scans a directory for video files, resolves a named encoding
    preset and launches one external encoder process per file.  The model
    below follows the Python source function by function.

    Representation choices.
    - A Python [str] is a [string] holding its UTF-8 encoding; [bytes] is a
      [list byte].  [bytes.decode()] is then a well-formedness check.
      [str.lower()] is ASCII lower-casing on ASCII strings and a parameter
      elsewhere.
    - [pathlib] paths are records of a root and a list of components: the
      POSIX flavour of [PurePath], with [suffix] and [stem] as CPython 3.12
      computes them.
    - The file system is a finite tree without links or permissions; a
      directory keeps its entries in the order in which the operating
      system lists them.
    - Effects (the file system, standard output, launched processes) are
      threaded through a state-and-exception monad.  The behaviour of the
      external encoder and the parsing of the command line are parameters.
      [print] is taken to succeed in [process_video], [run] and [main]; the
      definitions with the suffix [_io] are the same functions with a
      [print] that may raise (an encoding error, a closed pipe) and with an
      argument parser that may write to standard output. *)

From Stdlib Require Import ZArith List Bool Lia.
From Stdlib.Strings Require Import Ascii String Byte.
From Stdlib Require Import DecimalString.
Import ListNotations.

Local Open Scope string_scope.
Local Open Scope list_scope.
Local Open Scope Z_scope.

(** Concatenation of strings, as in an f-string. *)
Infix "+++" := String.append (right associativity, at level 60).

(* ===================================================================== *)
(** ** Python strings and bytes *)
(* ===================================================================== *)

Module Str.

(** [len(s)] and the slices [s[:n]], [s[n:]] for [0 <= n]. *)
Definition len (s : string) : Z := Z.of_nat (String.length s).

Fixpoint take (n : nat) (s : string) : string :=
  match n, s with
  | S k, String a r => String a (take k r)
  | _, _ => EmptyString
  end.

Fixpoint drop (n : nat) (s : string) : string :=
  match n, s with
  | S k, String _ r => drop k r
  | _, _ => s
  end.

(** [s.rfind(c)]: the highest index at which [c] occurs, or [-1]. *)
Fixpoint rfind (c : ascii) (s : string) : Z :=
  match s with
  | EmptyString => -1
  | String a r =>
      let i := rfind c r in
      if 0 <=? i then i + 1
      else if Ascii.eqb a c then 0 else -1
  end.

(** [c not in s]. *)
Fixpoint free_of (c : ascii) (s : string) : Prop :=
  match s with
  | EmptyString => True
  | String a r => a <> c /\ free_of c r
  end.

(** [s.split(sep)] for a one-character separator. *)
Fixpoint split (sep : ascii) (s : string) : list string :=
  match s with
  | EmptyString => [EmptyString]
  | String a r =>
      if Ascii.eqb a sep then EmptyString :: split sep r
      else match split sep r with
           | h :: t => String a h :: t
           | [] => [String a EmptyString]
           end
  end.

(** [str(n)] for an integer. *)
Definition of_int (n : Z) : string := NilZero.string_of_int (Z.to_int n).

Fixpoint map_chars (f : ascii -> ascii) (s : string) : string :=
  match s with
  | EmptyString => EmptyString
  | String a r => String (f a) (map_chars f r)
  end.

Fixpoint all_chars (p : ascii -> bool) (s : string) : bool :=
  match s with
  | EmptyString => true
  | String a r => p a && all_chars p r
  end.

Definition is_ascii (c : ascii) : bool := (N_of_ascii c <? 128)%N.

Definition ascii_lower_char (c : ascii) : ascii :=
  let n := N_of_ascii c in
  if ((65 <=? n) && (n <=? 90))%N then ascii_of_N (n + 32) else c.

Definition ascii_lower (s : string) : string := map_chars ascii_lower_char s.

Section Lower.
(** [str.lower()] on a string with a character outside ASCII follows the
    Unicode character database, which is not part of the program. *)
Variable unicode_lower : string -> string.

Definition lower (s : string) : string :=
  if all_chars is_ascii s then ascii_lower s else unicode_lower s.
End Lower.

(** Membership of a string in a set literal. *)
Definition mem (s : string) (l : list string) : bool :=
  existsb (String.eqb s) l.

(** *** UTF-8 *)

Definition between (lo hi b : N) : bool := ((lo <=? b) && (b <=? hi))%N.
Definition cont (b : N) : bool := between 128 191 b.

(** Well-formed UTF-8 byte sequences (Unicode standard, table 3-7), as
    accepted by the strict decoder. *)
Fixpoint utf8_ok (bs : list N) : bool :=
  match bs with
  | [] => true
  | b0 :: r0 =>
      if (b0 <? 128)%N then utf8_ok r0
      else match r0 with
      | [] => false
      | b1 :: r1 =>
          if between 194 223 b0 then cont b1 && utf8_ok r1
          else match r1 with
          | [] => false
          | b2 :: r2 =>
              if (b0 =? 224)%N then between 160 191 b1 && cont b2 && utf8_ok r2
              else if between 225 236 b0 then cont b1 && cont b2 && utf8_ok r2
              else if (b0 =? 237)%N then between 128 159 b1 && cont b2 && utf8_ok r2
              else if between 238 239 b0 then cont b1 && cont b2 && utf8_ok r2
              else match r2 with
              | [] => false
              | b3 :: r3 =>
                  if (b0 =? 240)%N
                  then between 144 191 b1 && cont b2 && cont b3 && utf8_ok r3
                  else if between 241 243 b0
                  then cont b1 && cont b2 && cont b3 && utf8_ok r3
                  else if (b0 =? 244)%N
                  then between 128 143 b1 && cont b2 && cont b3 && utf8_ok r3
                  else false
              end
          end
      end
  end.

(** [b.decode()] with the default codec and error handler: [None] stands
    for [UnicodeDecodeError]. *)
Definition decode (b : list byte) : option string :=
  if utf8_ok (map Byte.to_N b) then Some (string_of_list_byte b) else None.

Definition decodable (b : list byte) : bool :=
  match decode b with
  | Some _ => true
  | None => false
  end.

End Str.

(* ===================================================================== *)
(** ** [pathlib]: pure paths, POSIX flavour *)
(* ===================================================================== *)

Module Pathlib.

(** A parsed path: [root] is [""], ["/"] or ["//"]; [tail] holds the
    components after the root, none of them empty or ["."]. *)
Record PurePath := { root : string; tail : list string }.

(** [posixpath.splitroot] without the (always empty) drive. *)
Definition splitroot (p : string) : string * string :=
  match p with
  | String "/" (String "/" (String "/" _ as r)) => ("/", String "/" r)
  | String "/" (String "/" r) => ("//", r)
  | String "/" r => ("/", r)
  | _ => ("", p)
  end.

Definition keep_part (x : string) : bool :=
  negb (String.eqb x "") && negb (String.eqb x ".").

(** [Path(s)]. *)
Definition Path (s : string) : PurePath :=
  let '(rt, rel) := splitroot s in
  {| root := rt; tail := filter keep_part (Str.split "/" rel) |}.

(** [str(p)]. *)
Definition str (p : PurePath) : string :=
  if String.eqb (root p) "" then
    match tail p with
    | [] => "."
    | t => String.concat "/" t
    end
  else root p +++ String.concat "/" (tail p).

(** [p / s] for a string [s]: an absolute right operand replaces [p]. *)
Definition joinpath (p : PurePath) (s : string) : PurePath :=
  let q := Path s in
  if String.eqb (root q) "" then {| root := root p; tail := tail p ++ tail q |}
  else q.

(** [p.parent]. *)
Definition parent (p : PurePath) : PurePath :=
  {| root := root p; tail := removelast (tail p) |}.

(** The child path that [iterdir] builds for a listed entry name. *)
Definition make_child (p : PurePath) (entry : string) : PurePath :=
  {| root := root p; tail := tail p ++ [entry] |}.

(** [p.name]: the final component, or the empty string. *)
Definition name (p : PurePath) : string := last (tail p) "".

(** The position of the dot that starts the suffix of a name, if any:
    the last dot, provided it is neither the first nor the last
    character ([0 < i < len(name) - 1] for [i = name.rfind('.')]).
    Positions count bytes here and characters in Python; the dot is one
    byte, so the test and the two slices come out the same. *)
Definition suffix_dot (nm : string) : option nat :=
  let i := Str.rfind "." nm in
  if (0 <? i) && (i <? Str.len nm - 1) then Some (Z.to_nat i) else None.

(** [p.suffix] and [p.stem]. *)
Definition suffix (p : PurePath) : string :=
  match suffix_dot (name p) with
  | Some i => Str.drop i (name p)
  | None => ""
  end.

Definition stem (p : PurePath) : string :=
  match suffix_dot (name p) with
  | Some i => Str.take i (name p)
  | None => name p
  end.

End Pathlib.

(* ===================================================================== *)
(** ** The file system *)
(* ===================================================================== *)

Module OS.
Import Pathlib.

(** A file-system object: a regular file or a directory with its entries
    in listing order. *)
#[local] Unset Elimination Schemes.
Inductive node : Type :=
| File : node
| Dir : list (string * node) -> node.
#[local] Set Elimination Schemes.

Inductive errno : Type := ENOENT | EEXIST | ENOTDIR.

Fixpoint find_entry (nm : string) (es : list (string * node)) : option node :=
  match es with
  | [] => None
  | (k, n) :: r => if String.eqb k nm then Some n else find_entry nm r
  end.

(** The object at a location, given as plain names from the top. *)
Fixpoint lookup (n : node) (loc : list string) : option node :=
  match loc with
  | [] => Some n
  | c :: r =>
      match n with
      | File => None
      | Dir es =>
          match find_entry c es with
          | Some m => lookup m r
          | None => None
          end
      end
  end.

Fixpoint update_entry (nm : string) (f : node -> node)
         (es : list (string * node)) : list (string * node) :=
  match es with
  | [] => []
  | (k, n) :: r =>
      if String.eqb k nm then (k, f n) :: r else (k, n) :: update_entry nm f r
  end.

(** Add an empty directory [nm] to the directory at [loc]. *)
Fixpoint add_dir (n : node) (loc : list string) (nm : string) : node :=
  match n with
  | File => File
  | Dir es =>
      match loc with
      | [] => Dir (es ++ [(nm, Dir [])])
      | c :: r => Dir (update_entry c (fun m => add_dir m r nm) es)
      end
  end.

(** The state of the file system: the tree and the location of the
    current working directory. *)
Record fs := { top : node; cwd : list string }.

Definition start (f : fs) (p : PurePath) : list string :=
  if String.eqb (root p) "" then cwd f else [].

(** Path resolution: follow [comps] from the directory at [loc].  Every
    directory that is stepped through has to exist; [".."] steps up. *)
Fixpoint walk (t : node) (loc : list string) (comps : list string)
  : errno + list string :=
  match comps with
  | [] => inr loc
  | c :: r =>
      match lookup t loc with
      | None => inl ENOENT
      | Some File => inl ENOTDIR
      | Some (Dir _) =>
          walk t (if String.eqb c ".." then removelast loc else loc ++ [c]) r
      end
  end.

Definition stat (f : fs) (p : PurePath) : errno + node :=
  match walk (top f) (start f p) (tail p) with
  | inl e => inl e
  | inr loc =>
      match lookup (top f) loc with
      | Some n => inr n
      | None => inl ENOENT
      end
  end.

(** [os.mkdir(p)]. *)
Definition mkdir (f : fs) (p : PurePath) : errno + fs :=
  match tail p with
  | [] =>
      match lookup (top f) (start f p) with
      | Some _ => inl EEXIST
      | None => inl ENOENT
      end
  | _ :: _ =>
      let nm := last (tail p) "" in
      match walk (top f) (start f p) (removelast (tail p)) with
      | inl e => inl e
      | inr loc =>
          match lookup (top f) loc with
          | None => inl ENOENT
          | Some File => inl ENOTDIR
          | Some (Dir es) =>
              if String.eqb nm ".." then inl EEXIST
              else match find_entry nm es with
                   | Some _ => inl EEXIST
                   | None => inr {| top := add_dir (top f) loc nm; cwd := cwd f |}
                   end
          end
      end
  end.

(** A component other than the parent link. *)
Definition plain (c : string) : Prop := c <> "..".



(** [os.listdir(p)]: the entry names, in listing order. *)
Definition listdir (f : fs) (p : PurePath) : errno + list string :=
  match stat f p with
  | inl e => inl e
  | inr File => inl ENOTDIR
  | inr (Dir es) => inr (map fst es)
  end.

(** [p.is_dir()]: errors count as "no". *)
Definition is_dir (f : fs) (p : PurePath) : bool :=
  match stat f p with
  | inr (Dir _) => true
  | _ => false
  end.

End OS.

(* ===================================================================== *)
(** ** The runtime: exceptions, the world, and the effect monad *)
(* ===================================================================== *)

Module Py.
Import Pathlib.

(** The exceptions that the program can meet.  [OtherError] stands for any
    exception class unrelated to the named ones. *)
Inductive exn : Type :=
| CalledProcessError (returncode : Z) (cmd : list string)
                     (output stderr : list byte)
| FileNotFoundError
| FileExistsError
| NotADirectoryError
| PermissionError
| UnicodeDecodeError
| SystemExit (code : Z)
| OtherError (cls : string).

Definition is_CalledProcessError (e : exn) : bool :=
  match e with
  | CalledProcessError _ _ _ _ => true
  | _ => false
  end.

Definition exn_of_errno (e : OS.errno) : exn :=
  match e with
  | OS.ENOENT => FileNotFoundError
  | OS.EEXIST => FileExistsError
  | OS.ENOTDIR => NotADirectoryError
  end.

(** What the program can observe and change: the file system as the
    program itself sees and changes it (what the encoder writes is not
    tracked: the program never looks), the lines printed so far, and the
    commands handed to [subprocess.run] so far. *)
Record World := {
  files : OS.fs;
  stdout : list string;
  launched : list (list string)
}.

Inductive result (A : Type) : Type :=
| Ok (a : A)
| Raise (e : exn).
Arguments Ok {A} a.
Arguments Raise {A} e.

Definition M (A : Type) : Type := World -> result A * World.

Definition ret {A} (a : A) : M A := fun w => (Ok a, w).
Definition raise {A} (e : exn) : M A := fun w => (Raise e, w).

Definition bind {A B} (m : M A) (k : A -> M B) : M B :=
  fun w =>
    match m w with
    | (Ok a, w') => k a w'
    | (Raise e, w') => (Raise e, w')
    end.

Definition lift {A} (r : result A) : M A := fun w => (r, w).

(** [try: body except <class> as e: handler]: [handler e] is [None] when
    [e] is not an instance of the class. *)
Definition try_except {A} (body : M A) (handler : exn -> option (M A)) : M A :=
  fun w =>
    match body w with
    | (Ok a, w') => (Ok a, w')
    | (Raise e, w') =>
        match handler e with
        | Some h => h w'
        | None => (Raise e, w')
        end
    end.

Declare Scope py_scope.
Delimit Scope py_scope with py.
Notation "x <- m ;; k" := (bind m (fun x => k))
  (at level 61, m at next level, right associativity) : py_scope.
Notation "m ;; k" := (bind m (fun _ => k))
  (at level 61, right associativity) : py_scope.
Local Open Scope py_scope.

(** [for x in xs: body x]. *)
Fixpoint for_each {A} (xs : list A) (body : A -> M unit) : M unit :=
  match xs with
  | [] => ret tt
  | x :: r => body x ;; for_each r body
  end.

(** [print(s)]. *)
Definition print (s : string) : M unit :=
  fun w => (Ok tt, {| files := files w; stdout := stdout w ++ [s];
                      launched := launched w |}).

(** The world [w] after more lines were printed and more commands were
    launched. *)
Definition extend (w : World) (lines : list string)
           (cmds : list (list string)) : World :=
  {| files := files w; stdout := stdout w ++ lines;
     launched := launched w ++ cmds |}.

(** [w'] differs from [w] at most by directories that were added. *)
Definition grows (w w' : World) : Prop :=
  stdout w' = stdout w
  /\ launched w' = launched w
  /\ OS.cwd (files w') = OS.cwd (files w)
  /\ (forall l es, OS.lookup (OS.top (files w)) l = Some (OS.Dir es) ->
                   exists es', OS.lookup (OS.top (files w')) l = Some (OS.Dir es'))
  /\ (forall l, OS.lookup (OS.top (files w')) l = Some OS.File ->
                OS.lookup (OS.top (files w)) l = Some OS.File).

(** Every regular file of [w] is a regular file of [w']. *)
Definition keeps_files (w w' : World) : Prop :=
  forall l, OS.lookup (OS.top (files w)) l = Some OS.File ->
            OS.lookup (OS.top (files w')) l = Some OS.File.

(** [b.decode()]. *)
Definition decode (b : list byte) : M string :=
  match Str.decode b with
  | Some s => ret s
  | None => raise UnicodeDecodeError
  end.

(** *** [pathlib] operations that touch the file system *)

Definition set_files (w : World) (f : OS.fs) : World :=
  {| files := f; stdout := stdout w; launched := launched w |}.

Definition os_mkdir (p : PurePath) : M unit :=
  fun w =>
    match OS.mkdir (files w) p with
    | inr f => (Ok tt, set_files w f)
    | inl e => (Raise (exn_of_errno e), w)
    end.

Definition is_dir (p : PurePath) : M bool :=
  fun w => (Ok (OS.is_dir (files w) p), w).

(** [Path.mkdir(parents=False, exist_ok)]: a missing parent is an error;
    any other failure of [os.mkdir] is forgiven when [exist_ok] is set and
    the path is a directory. *)
Definition mkdir_here (self : PurePath) (exist_ok : bool) : M unit :=
  try_except (os_mkdir self)
    (fun e =>
       match e with
       | FileExistsError | NotADirectoryError | PermissionError =>
           Some (d <- is_dir self ;;
                 if negb exist_ok || negb d then raise e else ret tt)
       | _ => None
       end).

(** [Path.mkdir(parents, exist_ok)].  The path is [root] followed by the
    components [rtail] in reverse order, so that the recursive call on
    [self.parent] is structural.  [self.parent == self] holds exactly for
    an empty tail.  The second call of the source,
    [self.mkdir(parents=False, exist_ok=exist_ok)], is [mkdir_here]. *)
Fixpoint mkdir_rev (rt : string) (rtail : list string)
         (parents exist_ok : bool) : M unit :=
  let self := {| root := rt; tail := rev rtail |} in
  try_except (os_mkdir self)
    (fun e =>
       match e with
       | FileNotFoundError =>
           Some (match rtail with
                 | [] => raise e
                 | _ :: up =>
                     if negb parents then raise e
                     else
                       mkdir_rev rt up true true ;;
                       mkdir_here self exist_ok
                 end)
       | FileExistsError | NotADirectoryError | PermissionError =>
           Some (d <- is_dir self ;;
                 if negb exist_ok || negb d then raise e else ret tt)
       | _ => None
       end).

Definition mkdir (p : PurePath) (parents exist_ok : bool) : M unit :=
  mkdir_rev (root p) (rev (tail p)) parents exist_ok.

(** [list(p.iterdir())]. *)
Definition iterdir (p : PurePath) : M (list PurePath) :=
  fun w =>
    match OS.listdir (files w) p with
    | inr names => (Ok (map (make_child p) names), w)
    | inl e => (Raise (exn_of_errno e), w)
    end.

(** *** [subprocess] *)

(** How a launch ends: the launch itself raises, or the process runs and
    exits with a status and its captured output streams. *)
Inductive launch_result : Type :=
| Fails (e : exn)
| Exits (returncode : Z) (out err : list byte).

Section Subprocess.
(** The external world: the outcome of the [n]-th launch (counting from
    zero) of a command. *)
Variable spawn : nat -> list string -> launch_result.

(** [subprocess.run(cmd, check=True, capture_output=True)]; the returned
    [CompletedProcess] is not used by the program. *)
Definition subprocess_run (cmd : list string) : M unit :=
  fun w =>
    let w' := {| files := files w; stdout := stdout w;
                 launched := launched w ++ [cmd] |} in
    match spawn (List.length (launched w)) cmd with
    | Fails e => (Raise e, w')
    | Exits rc out err =>
        if rc =? 0 then (Ok tt, w')
        else (Raise (CalledProcessError rc cmd out err), w')
    end.
End Subprocess.

Section Output.
(** Standard output: [write n s] is the exception, if any, that writing
    the line [s] raises when [n] lines have been written before it
    ([UnicodeEncodeError] when the codec of standard output cannot encode
    [s], [BrokenPipeError], ...). *)
Variable write : nat -> string -> option exn.

(** [print(s)] on such an output. *)
Definition print_io (s : string) : M unit :=
  fun w =>
    match write (List.length (stdout w)) s with
    | None => print s w
    | Some e => (Raise e, w)
    end.
End Output.

(** The exit status of the interpreter when the script's top level ends
    with [r]. *)
Definition exit_status {A} (r : result A) : Z :=
  match r with
  | Ok _ => 0
  | Raise (SystemExit c) => c
  | Raise _ => 1
  end.

End Py.

(* ===================================================================== *)
(** ** [class VideoPipeline] *)
(* ===================================================================== *)

Module VideoPipeline.
Import Pathlib Py.
Local Open Scope py_scope.

(** A preset: the inner dictionaries of [presets], which all have the
    same five keys. *)
Record Config := {
  width : Z;
  height : Z;
  fps : Z;
  bitrate : string;
  codec : string
}.

(** The attributes of a pipeline object. *)
Record t := {
  input_dir : PurePath;
  output_dir : PurePath;
  preset : string;
  config : Config
}.

(** [d.get(key, default)] on a dictionary given by its items. *)
Fixpoint dict_get {V} (d : list (string * V)) (key : string) (default : V) : V :=
  match d with
  | [] => default
  | (k, v) :: r => if String.eqb k key then v else dict_get r key default
  end.

(** [d[key]]; [None] stands for [KeyError]. *)
Fixpoint dict_item {V} (d : list (string * V)) (key : string) : option V :=
  match d with
  | [] => None
  | (k, v) :: r => if String.eqb k key then Some v else dict_item r key
  end.

Definition presets : list (string * Config) :=
  [ ("tiktok",
     {| width := 1080; height := 1920; fps := 30;
        bitrate := "5M"; codec := "h264_nvenc" |});
    ("youtube",
     {| width := 1080; height := 1920; fps := 60;
        bitrate := "8M"; codec := "h264_nvenc" |}) ].

(** [presets['tiktok']]: the key is present, so the lookup evaluates. *)
Definition presets_tiktok : Config :=
  Eval cbv in
    match dict_item presets "tiktok" with
    | Some c => c
    | None => {| width := 0; height := 0; fps := 0; bitrate := ""; codec := "" |}
    end.

Definition _load_preset (preset : string) : Config :=
  dict_get presets preset presets_tiktok.

Definition __init__ (input_dir output_dir : string) (preset : string) : M t :=
  let input_dir := Path input_dir in
  let output_dir := Path output_dir in
  mkdir output_dir true true ;;
  ret {| input_dir := input_dir; output_dir := output_dir;
         preset := preset; config := _load_preset preset |}.

(** The local variables [output_file] and [cmd] of [process_video]. *)
Definition output_file (self : t) (input_file : PurePath) : PurePath :=
  joinpath (output_dir self) (stem input_file +++ "_processed.mp4").

Definition cmd (self : t) (input_file : PurePath) : list string :=
  [ "ffmpeg";
    "-hwaccel"; "cuda";
    "-i"; str input_file;
    "-vf"; "scale=" +++ Str.of_int (width (config self)) +++ ":"
           +++ Str.of_int (height (config self))
           +++ ":force_original_aspect_ratio=decrease,pad="
           +++ Str.of_int (width (config self)) +++ ":"
           +++ Str.of_int (height (config self))
           +++ ":(ow-iw)/2:(oh-ih)/2";
    "-c:v"; codec (config self);
    "-b:v"; bitrate (config self);
    "-r"; Str.of_int (fps (config self));
    "-c:a"; "aac";
    "-b:a"; "128k";
    "-y";
    str (output_file self input_file) ].

Definition newline : string := String "010" EmptyString.

Definition video_extensions : list string := [".mp4"; ".mkv"; ".avi"; ".mov"].

Definition add_captions (self : t) (video_file : PurePath) : M PurePath :=
  print ("Adding captions to: " +++ name video_file) ;;
  ret video_file.

Section WithWorld.
Variable unicode_lower : string -> string.
Variable spawn : nat -> list string -> launch_result.

Definition process_video (self : t) (input_file : PurePath)
  : M (option PurePath) :=
  print ("Processing: " +++ name input_file) ;;
  try_except
    (subprocess_run spawn (cmd self input_file) ;;
     print ("✓ Completed: " +++ name (output_file self input_file)) ;;
     ret (Some (output_file self input_file)))
    (fun e =>
       match e with
       | CalledProcessError _ _ _ stderr =>
           Some (text <- decode stderr ;;
                 print ("✗ Error processing " +++ name input_file
                        +++ ": " +++ text) ;;
                 ret None)
       | _ => None
       end).

(** The condition of the list comprehension in [run]. *)
Definition is_video (f : PurePath) : bool :=
  Str.mem (Str.lower unicode_lower (suffix f)) video_extensions.

Definition input_files (self : t) : M (list PurePath) :=
  entries <- iterdir (input_dir self) ;;
  ret (filter is_video entries).

(** The body of the loop in [run]: the branch taken when [processed] is
    truthy only passes. *)
Definition loop_body (self : t) (input_file : PurePath) : M unit :=
  processed <- process_video self input_file ;;
  match processed with
  | Some _ => ret tt
  | None => ret tt
  end.

(** The part of [run] that follows the list comprehension. *)
Definition run_on (self : t) (input_files : list PurePath) : M unit :=
  match input_files with
  | [] => print ("No video files found in " +++ str (input_dir self))
  | _ :: _ =>
      print ("Found " +++ Str.of_int (Z.of_nat (List.length input_files))
             +++ " video(s) to process" +++ newline) ;;
      for_each input_files (loop_body self) ;;
      print (newline +++ "✓ Pipeline complete! Output: "
             +++ str (output_dir self))
  end.

Definition run (self : t) : M unit :=
  input_files <- input_files self ;;
  run_on self input_files.
End WithWorld.

Section WithOutput.
Variable unicode_lower : string -> string.
Variable spawn : nat -> list string -> launch_result.
Variable write : nat -> string -> option exn.

(** [process_video], [run] with a [print] that may raise.  The first
    [print] stands before the [try]; the second is inside its body and the
    third inside its handler. *)
Definition process_video_io (self : t) (input_file : PurePath)
  : M (option PurePath) :=
  print_io write ("Processing: " +++ name input_file) ;;
  try_except
    (subprocess_run spawn (cmd self input_file) ;;
     print_io write ("✓ Completed: " +++ name (output_file self input_file)) ;;
     ret (Some (output_file self input_file)))
    (fun e =>
       match e with
       | CalledProcessError _ _ _ stderr =>
           Some (text <- decode stderr ;;
                 print_io write ("✗ Error processing " +++ name input_file
                                 +++ ": " +++ text) ;;
                 ret None)
       | _ => None
       end).

Definition loop_body_io (self : t) (input_file : PurePath) : M unit :=
  processed <- process_video_io self input_file ;;
  match processed with
  | Some _ => ret tt
  | None => ret tt
  end.

Definition run_on_io (self : t) (input_files : list PurePath) : M unit :=
  match input_files with
  | [] => print_io write ("No video files found in " +++ str (input_dir self))
  | _ :: _ =>
      print_io write
        ("Found " +++ Str.of_int (Z.of_nat (List.length input_files))
         +++ " video(s) to process" +++ newline) ;;
      for_each input_files (loop_body_io self) ;;
      print_io write (newline +++ "✓ Pipeline complete! Output: "
                      +++ str (output_dir self))
  end.

Definition run_io (self : t) : M unit :=
  input_files <- input_files unicode_lower self ;;
  run_on_io self input_files.
End WithOutput.

End VideoPipeline.

(* ===================================================================== *)
(** ** [main] and the script *)
(* ===================================================================== *)

Module Script.
Import Pathlib Py.
Local Open Scope py_scope.

(** The namespace returned by [parser.parse_args()]. *)
Record Args := { input : string; output : string; preset : string }.

Section Main.
Variable unicode_lower : string -> string.
Variable spawn : nat -> list string -> launch_result.
(** [argparse] is a library: its result on the command line is a
    parameter.  A rejected command line raises [SystemExit]. *)
Variable parse_args : list string -> result Args.

Definition main (argv : list string) : M unit :=
  args <- lift (parse_args argv) ;;
  pipeline <- VideoPipeline.__init__ (input args) (output args) (preset args) ;;
  VideoPipeline.run unicode_lower spawn pipeline.

(** Running the script: the exit status of the process and the final
    world. *)
Definition script (argv : list string) (w : World) : Z * World :=
  let '(r, w') := main argv w in (exit_status r, w').
End Main.

Section MainIO.
Variable unicode_lower : string -> string.
Variable spawn : nat -> list string -> launch_result.
Variable write : nat -> string -> option exn.
(** [parser.parse_args()] with its effects: before it raises [SystemExit]
    it may have written a usage or help text. *)
Variable parse_args : list string -> M Args.

Definition main_io (argv : list string) : M unit :=
  args <- parse_args argv ;;
  pipeline <- VideoPipeline.__init__ (input args) (output args) (preset args) ;;
  VideoPipeline.run_io unicode_lower spawn write pipeline.

Definition script_io (argv : list string) (w : World) : Z * World :=
  let '(r, w') := main_io argv w in (exit_status r, w').
End MainIO.

End Script.

(* ===================================================================== *)
(** ** The specification's vocabulary *)
(* ===================================================================== *)

Module Spec.
Import Pathlib Py.

(** The preset table of the specification. *)
Definition tiktok : VideoPipeline.Config :=
  {| VideoPipeline.width := 1080; VideoPipeline.height := 1920;
     VideoPipeline.fps := 30; VideoPipeline.bitrate := "5M";
     VideoPipeline.codec := "h264_nvenc" |}.

Definition youtube : VideoPipeline.Config :=
  {| VideoPipeline.width := 1080; VideoPipeline.height := 1920;
     VideoPipeline.fps := 60; VideoPipeline.bitrate := "8M";
     VideoPipeline.codec := "h264_nvenc" |}.

(** Scale to fit inside [w] x [h] keeping the aspect ratio, then pad to
    exactly [w] x [h] with the picture centred. *)
Definition scale_pad_filter (w h : Z) : string :=
  "scale=" +++ Str.of_int w +++ ":" +++ Str.of_int h
  +++ ":force_original_aspect_ratio=decrease"
  +++ ",pad=" +++ Str.of_int w +++ ":" +++ Str.of_int h
  +++ ":(ow-iw)/2:(oh-ih)/2".

(** The fixed shape of an encoder invocation. *)
Definition encoder_invocation (c : VideoPipeline.Config)
           (input_path output_path : string) : list string :=
  ["ffmpeg"]
  ++ ["-hwaccel"; "cuda"]
  ++ ["-i"; input_path]
  ++ ["-vf"; scale_pad_filter (VideoPipeline.width c) (VideoPipeline.height c)]
  ++ ["-c:v"; VideoPipeline.codec c]
  ++ ["-b:v"; VideoPipeline.bitrate c]
  ++ ["-r"; Str.of_int (VideoPipeline.fps c)]
  ++ ["-c:a"; "aac"]
  ++ ["-b:a"; "128k"]
  ++ ["-y"]
  ++ [output_path].

(** The allow-list of container formats. *)
Definition formats : list string := ["mp4"; "mkv"; "avi"; "mov"].

Section Extension.
Variable unicode_lower : string -> string.

(** An entry name whose extension, compared without regard to case, is
    on the allow-list.  The extension is the [pathlib] suffix of the
    name. *)
Definition has_video_extension (entry : string) : bool :=
  existsb
    (fun fmt =>
       String.eqb
         (Str.lower unicode_lower (suffix {| root := ""; tail := [entry] |}))
         ("." +++ fmt))
    formats.
End Extension.

(** An entry name that ends, without regard to ASCII case, in a dot
    followed by one of the formats. *)
Definition ends_with_video_extension (entry : string) : bool :=
  existsb
    (fun fmt =>
       let ending := "." +++ fmt in
       String.eqb
         (Str.ascii_lower
            (Str.drop (String.length entry - String.length ending) entry))
         ending)
    formats.

(** The outcome of the [i]-th launch made from the world [w] on. *)
Definition outcome (spawn : nat -> list string -> launch_result)
           (w : World) (i : nat) (c : list string) : launch_result :=
  spawn (List.length (launched w) + i)%nat c.

(** A launch outcome from which [process_video] returns: the encoder ran
    and exited with status zero, or the launch ended in
    [CalledProcessError] with an error stream that decodes. *)
Definition recovered (r : launch_result) : bool :=
  match r with
  | Exits rc _ err =>
      (rc =? 0) || Str.decodable err
  | Fails (CalledProcessError _ _ _ err) => Str.decodable err
  | Fails _ => false
  end.

(** The exception, if any, that leaves [process_video] on a launch
    outcome. *)
Definition escapes (r : launch_result) : option exn :=
  match r with
  | Exits rc _ err =>
      if (rc =? 0) || Str.decodable err then None else Some UnicodeDecodeError
  | Fails (CalledProcessError _ _ _ err) =>
      if Str.decodable err then None else Some UnicodeDecodeError
  | Fails e => Some e
  end.

(** A job has failed when the encoder exited with a non-zero status. *)
Definition job_failed (r : launch_result) : bool :=
  match r with
  | Exits rc _ _ => negb (rc =? 0)
  | Fails _ => false
  end.

(** What one job prints, given how its launch ends: a line when it starts
    and, unless an exception leaves the job, a line for its completion or
    its failure. *)
Definition job_report (self : VideoPipeline.t) (f : PurePath)
           (r : launch_result) : list string :=
  let failure (err : list byte) :=
    match Str.decode err with
    | Some text =>
        ["✗ Error processing " +++ name f +++ ": " +++ text]
    | None => []
    end in
  ("Processing: " +++ name f)
  :: match r with
     | Exits rc _ err =>
         if rc =? 0
         then ["✓ Completed: " +++ name (VideoPipeline.output_file self f)]
         else failure err
     | Fails (CalledProcessError _ _ _ err) => failure err
     | Fails _ => []
     end.

(** What a batch prints for its jobs when the first of them is the [n]-th
    launch. *)
Fixpoint batch_report (spawn : nat -> list string -> launch_result)
         (self : VideoPipeline.t) (n : nat) (l : list PurePath) : list string :=
  match l with
  | [] => []
  | f :: r =>
      job_report self f (spawn n (VideoPipeline.cmd self f))
      ++ batch_report spawn self (S n) r
  end.

(** What a run over the selected files [l] prints when every job returns
    and the first job is the [n]-th launch. *)
Definition run_report (spawn : nat -> list string -> launch_result)
           (self : VideoPipeline.t) (n : nat) (l : list PurePath)
  : list string :=
  match l with
  | [] => ["No video files found in " +++ str (VideoPipeline.input_dir self)]
  | _ :: _ =>
      ["Found " +++ Str.of_int (Z.of_nat (List.length l))
       +++ " video(s) to process" +++ VideoPipeline.newline]
      ++ batch_report spawn self n l
      ++ [VideoPipeline.newline +++ "✓ Pipeline complete! Output: "
          +++ str (VideoPipeline.output_dir self)]
  end.


End Spec.

(* ===================================================================== *)
(** ** Concrete worlds *)
(* ===================================================================== *)

Module Examples.
Import Pathlib Py.

(** For names in ASCII the Unicode tables are never consulted. *)
Definition no_unicode (s : string) : string := s.

Definition world_of (t : OS.node) : World :=
  {| files := {| OS.top := t; OS.cwd := [] |}; stdout := []; launched := [] |}.

(** The command line of the script without options: the defaults. *)
Definition defaults (argv : list string) : result Script.Args :=
  Ok {| Script.input := "input"; Script.output := "output";
        Script.preset := "tiktok" |}.

(** An input directory with four files. *)
Definition four_files : World :=
  world_of (OS.Dir [("input",
                     OS.Dir [("a.mp4", OS.File); ("b.MKV", OS.File);
                             ("c.txt", OS.File); ("d.avi", OS.File)])]).

(** An input directory with two videos. *)
Definition two_videos : World :=
  world_of (OS.Dir [("input",
                     OS.Dir [("a.mp4", OS.File); ("b.mp4", OS.File)])]).

(** An empty input directory. *)
Definition empty_input : World := world_of (OS.Dir [("input", OS.Dir [])]).

(** An input directory holding a file named [.mp4] and a subdirectory
    named [clips.MP4]. *)
Definition odd_entries : World :=
  world_of (OS.Dir [("input",
                     OS.Dir [(".mp4", OS.File);
                             ("clips.MP4", OS.Dir [("x.txt", OS.File)])])]).

(** Encoders. *)
Definition always_succeeds (n : nat) (c : list string) : launch_result :=
  Exits 0 [] [].

(** The first launch exits with status 1 and the text [boom] on its error
    stream. *)
Definition first_fails (n : nat) (c : list string) : launch_result :=
  match n with
  | O => Exits 1 [] [x62; x6f; x6f; x6d]
  | S _ => Exits 0 [] []
  end.

(** The first launch exits with status 1 and the single byte [0xff] on its
    error stream. *)
Definition first_fails_bad_stderr (n : nat) (c : list string) : launch_result :=
  match n with
  | O => Exits 1 [] [xff]
  | S _ => Exits 0 [] []
  end.

(** The second launch is refused by the operating system. *)
Definition second_denied (n : nat) (c : list string) : launch_result :=
  match n with
  | 1%nat => Fails PermissionError
  | _ => Exits 0 [] []
  end.

(** The encoder binary is not installed. *)
Definition binary_absent (n : nat) (c : list string) : launch_result :=
  Fails FileNotFoundError.

(** A pipeline object over [input] and [output] with the tiktok preset. *)
Definition pipeline : VideoPipeline.t :=
  {| VideoPipeline.input_dir := Path "input";
     VideoPipeline.output_dir := Path "output";
     VideoPipeline.preset := "tiktok";
     VideoPipeline.config := VideoPipeline._load_preset "tiktok" |}.

(** The world [w] once the directory [output] has been added. *)
Definition with_output (w : World) : World :=
  match OS.mkdir (files w) (Path "output") with
  | inr f => set_files w f
  | inl _ => w
  end.

(** The pipeline object that the constructor builds for an unknown preset
    name. *)
Definition pipeline_of_unknown_preset : VideoPipeline.t :=
  {| VideoPipeline.input_dir := Path "input";
     VideoPipeline.output_dir := Path "output";
     VideoPipeline.preset := "instagram";
     VideoPipeline.config := VideoPipeline._load_preset "instagram" |}.


(** The output path is taken by a regular file. *)
Definition output_is_file : World :=
  world_of (OS.Dir [("input", OS.Dir [("a.mp4", OS.File)]);
                    ("output", OS.File)]).

(** There is no input directory. *)
Definition no_input : World := world_of (OS.Dir []).

(** A standard output whose codec is UTF-8 with the strict error handler:
    a line is written when it is well-formed UTF-8. *)
Definition utf8_stdout (n : nat) (s : string) : option exn :=
  if Str.utf8_ok (map Byte.to_N (list_byte_of_string s)) then None
  else Some (OtherError "UnicodeEncodeError").

(** The command line without options, accepted without any output. *)
Definition defaults_io (argv : list string) : M Script.Args :=
  lift (defaults argv).

(** An input directory with one video whose name holds the byte [0xff],
    which is not UTF-8. *)
Definition raw_name : World :=
  world_of (OS.Dir [("input", OS.Dir [(String "255" "clip.mp4", OS.File)])]).

End Examples.

(* ===================================================================== *)
(** ** Facts about strings *)
(* ===================================================================== *)

Section StrFacts.
Import Str.

Lemma take_drop (n : nat) (s : string) : Str.take n s +++ Str.drop n s = s.
Proof.
  revert s; induction n as [|n IH]; intros [|a r]; simpl; try reflexivity.
  now rewrite IH.
Qed.

Lemma drop_app_length (p e : string) : Str.drop (String.length p) (p +++ e) = e.
Proof. induction p as [|a p IH]; simpl; auto. Qed.

Lemma take_app_length (p e : string) : Str.take (String.length p) (p +++ e) = p.
Proof.
  induction p as [|a p IH]; simpl.
  - now destruct e.
  - now rewrite IH.
Qed.

Lemma string_length_app (p e : string) :
  String.length (p +++ e) = (String.length p + String.length e)%nat.
Proof. induction p as [|a p IH]; simpl; auto. Qed.

Lemma rfind_lt_len (c : ascii) (s : string) : -1 <= Str.rfind c s < Str.len s.
Proof.
  unfold Str.len.
  induction s as [|a r IH]; [simpl; lia|].
  cbn [Str.rfind String.length].
  destruct (0 <=? Str.rfind c r) eqn:E.
  - apply Z.leb_le in E. lia.
  - destruct (Ascii.eqb a c); lia.
Qed.

Lemma rfind_free (c : ascii) (s : string) : free_of c s -> Str.rfind c s = -1.
Proof.
  induction s as [|a r IH]; simpl; [reflexivity|].
  intros [Ha Hr]. rewrite (IH Hr). simpl.
  destruct (Ascii.eqb_spec a c); congruence.
Qed.

(** The last occurrence of [c] in [p ++ c :: e] is at [len p] when [c]
    does not occur in [e]. *)
Lemma rfind_last (c : ascii) (p e : string) :
  free_of c e -> Str.rfind c (p +++ String c e) = Str.len p.
Proof.
  intros He. unfold Str.len.
  induction p as [|a p IH].
  - simpl. rewrite (rfind_free _ _ He). simpl. now rewrite Ascii.eqb_refl.
  - cbn [String.append Str.rfind String.length]. rewrite IH.
    destruct (0 <=? Z.of_nat (String.length p)) eqn:E.
    + lia.
    + apply Z.leb_gt in E. lia.
Qed.

Lemma split_free (c : ascii) (s : string) : free_of c s -> Str.split c s = [s].
Proof.
  induction s as [|a r IH]; simpl; [reflexivity|].
  intros [Ha Hr]. rewrite (IH Hr).
  destruct (Ascii.eqb_spec a c); congruence.
Qed.

Lemma free_of_app (c : ascii) (p e : string) :
  free_of c p -> free_of c e -> free_of c (p +++ e).
Proof. induction p as [|a p IH]; simpl; tauto. Qed.

Lemma free_of_take (c : ascii) (n : nat) (s : string) :
  free_of c s -> free_of c (Str.take n s).
Proof.
  revert s; induction n as [|n IH]; intros [|a r]; simpl; auto.
  intros [Ha Hr]; auto.
Qed.

Lemma all_chars_map_lower (s : string) :
  Str.all_chars Str.is_ascii (Str.ascii_lower s) = true ->
  Str.all_chars Str.is_ascii s = true.
Proof.
  induction s as [|a r IH]; simpl; [reflexivity|].
  intros H. apply andb_true_iff in H as [Ha Hr].
  rewrite (IH Hr), andb_true_r.
  revert Ha. unfold Str.ascii_lower_char.
  destruct ((65 <=? N_of_ascii a) && (N_of_ascii a <=? 90))%N eqn:E; auto.
  intros _. unfold Str.is_ascii.
  apply andb_true_iff in E as [_ E]. apply N.leb_le in E.
  apply N.ltb_lt. lia.
Qed.

(** On ASCII strings [lower] does not consult the Unicode tables. *)
Lemma lower_ascii (ul : string -> string) (s : string) :
  Str.all_chars Str.is_ascii s = true -> Str.lower ul s = Str.ascii_lower s.
Proof. unfold Str.lower. now intros ->. Qed.

End StrFacts.

(* ===================================================================== *)
(** ** Facts about paths *)
(* ===================================================================== *)

Section PathFacts.
Import Pathlib.

Lemma name_make_child (p : PurePath) (entry : string) :
  name (make_child p entry) = entry.
Proof. unfold name, make_child; simpl. apply last_last. Qed.

Lemma suffix_make_child (p q : PurePath) (entry : string) :
  suffix (make_child p entry) = suffix (make_child q entry).
Proof. unfold suffix. now rewrite !name_make_child. Qed.

(** A string without a slash that is neither empty nor a single dot
    parses to a one-component relative path. *)
Lemma Path_plain (s : string) :
  Str.free_of "/" s -> s <> "" -> s <> "." ->
  Path s = {| root := ""; tail := [s] |}.
Proof.
  intros Hfree Hne Hdot. unfold Path.
  assert (Hroot : splitroot s = ("", s)).
  { destruct s as [|a r]; [reflexivity|].
    destruct Hfree as [Ha _]. unfold splitroot.
    destruct a as [[] [] [] [] [] [] [] []]; try reflexivity.
    now elim Ha. }
  rewrite Hroot, (split_free _ _ Hfree). simpl. unfold keep_part.
  destruct (String.eqb_spec s ""); [contradiction|].
  destruct (String.eqb_spec s "."); [contradiction|].
  reflexivity.
Qed.

Lemma joinpath_plain (p : PurePath) (s : string) :
  Str.free_of "/" s -> s <> "" -> s <> "." ->
  joinpath p s = make_child p s.
Proof.
  intros H1 H2 H3. unfold joinpath. now rewrite (Path_plain s H1 H2 H3).
Qed.

Lemma stem_free (p : PurePath) :
  Str.free_of "/" (name p) -> Str.free_of "/" (stem p).
Proof.
  intros H. unfold stem. destruct (suffix_dot (name p)); auto.
  now apply free_of_take.
Qed.

(** A name is its stem followed by its suffix. *)
Lemma stem_suffix (p : PurePath) : stem p +++ suffix p = name p.
Proof.
  unfold stem, suffix. destruct (suffix_dot (name p)).
  - apply take_drop.
  - generalize (name p). intros s. induction s; simpl; congruence.
Qed.

Lemma processed_name_plain (s : string) :
  Str.free_of "/" s ->
  Str.free_of "/" (s +++ "_processed.mp4")
  /\ s +++ "_processed.mp4" <> "" /\ s +++ "_processed.mp4" <> ".".
Proof.
  intros H. split; [|split].
  - apply free_of_app; [assumption|].
    simpl. repeat split; discriminate.
  - intros E. apply (f_equal String.length) in E.
    rewrite string_length_app in E. simpl in E. lia.
  - intros E. apply (f_equal String.length) in E.
    rewrite string_length_app in E. simpl in E. lia.
Qed.

End PathFacts.

(* ===================================================================== *)
(** ** The preset resolver *)
(* ===================================================================== *)

Section PresetResolver.
Import VideoPipeline.

Lemma presets_tiktok_item : dict_item presets "tiktok" = Some presets_tiktok.
Proof. reflexivity. Qed.

Lemma dict_get_item {V} (d : list (string * V)) (key : string) (default : V) :
  dict_get d key default =
  match dict_item d key with
  | Some v => v
  | None => default
  end.
Proof.
  induction d as [|[k v] r IH]; simpl; [reflexivity|].
  destruct (String.eqb k key); auto.
Qed.

(** C2: resolving "tiktok" gives exactly (1080, 1920, 30, "5M",
    "h264_nvenc"), resolving "youtube" gives exactly (1080, 1920, 60,
    "8M", "h264_nvenc"), and resolving any other string gives the tiktok
    tuple; the resolver is a total function, so it never fails. *)
Theorem C2_preset_resolution :
  _load_preset "tiktok" = Spec.tiktok
  /\ _load_preset "youtube" = Spec.youtube
  /\ (forall name : string,
         name <> "tiktok" -> name <> "youtube" ->
         _load_preset name = Spec.tiktok).
Proof.
  split; [reflexivity|]. split; [reflexivity|].
  intros name Ht Hy. unfold _load_preset.
  rewrite dict_get_item. unfold presets. cbn [dict_item].
  destruct (String.eqb_spec "tiktok" name) as [E|_]; [now elim Ht|].
  destruct (String.eqb_spec "youtube" name) as [E|_]; [now elim Hy|].
  reflexivity.
Qed.

End PresetResolver.

Lemma C2_preset_resolution_witness :
  "instagram" <> "tiktok" /\ "instagram" <> "youtube"
  /\ VideoPipeline._load_preset "instagram" = Spec.tiktok.
Proof.
  split; [discriminate|]. split; [discriminate|].
  apply (proj2 (proj2 C2_preset_resolution) "instagram"); discriminate.
Defined.

(* ===================================================================== *)
(** ** One job *)
(* ===================================================================== *)

Section WorldFacts.
Import Py.

Lemma extend_extend (w : World) l1 c1 l2 c2 :
  extend (extend w l1 c1) l2 c2 = extend w (l1 ++ l2) (c1 ++ c2).
Proof. unfold extend; simpl. now rewrite <- !app_assoc. Qed.

Lemma extend_nil (w : World) : extend w [] [] = w.
Proof. destruct w; unfold extend; simpl. now rewrite !app_nil_r. Qed.

Lemma print_extend (s : string) (w : World) :
  print s w = (Ok tt, extend w [s] []).
Proof. unfold print, extend. now rewrite app_nil_r. Qed.

End WorldFacts.

Section OneJob.
Import Pathlib Py VideoPipeline.

Variable spawn : nat -> list string -> launch_result.
Variable self : VideoPipeline.t.
Variable input_file : PurePath.
Variable w : World.

Ltac run_job :=
  unfold process_video, bind, print, try_except, subprocess_run, decode,
    ret, raise, extend;
  cbn [files stdout launched fst snd].

Lemma job_exit_zero (out err : list byte) :
  spawn (List.length (launched w)) (cmd self input_file) = Exits 0 out err ->
  process_video spawn self input_file w =
  (Ok (Some (output_file self input_file)),
   extend w ["Processing: " +++ name input_file;
             "✓ Completed: " +++ name (output_file self input_file)]
          [cmd self input_file]).
Proof.
  intros H. run_job. rewrite H. cbn.
  now rewrite <- app_assoc.
Qed.

Lemma job_exit_nonzero (rc : Z) (out err : list byte) (text : string) :
  spawn (List.length (launched w)) (cmd self input_file) = Exits rc out err ->
  rc <> 0 -> Str.decode err = Some text ->
  process_video spawn self input_file w =
  (Ok None,
   extend w ["Processing: " +++ name input_file;
             "✗ Error processing " +++ name input_file +++ ": " +++ text]
          [cmd self input_file]).
Proof.
  intros H Hrc Hd. run_job. rewrite H.
  destruct (Z.eqb_spec rc 0) as [E|_]; [contradiction|].
  rewrite Hd. cbn. now rewrite <- app_assoc.
Qed.

Lemma job_exit_undecodable (rc : Z) (out err : list byte) :
  spawn (List.length (launched w)) (cmd self input_file) = Exits rc out err ->
  rc <> 0 -> Str.decode err = None ->
  process_video spawn self input_file w =
  (Raise UnicodeDecodeError,
   extend w ["Processing: " +++ name input_file] [cmd self input_file]).
Proof.
  intros H Hrc Hd. run_job. rewrite H.
  destruct (Z.eqb_spec rc 0) as [E|_]; [contradiction|].
  rewrite Hd. reflexivity.
Qed.

Lemma job_launch_raises (e : exn) :
  spawn (List.length (launched w)) (cmd self input_file) = Fails e ->
  is_CalledProcessError e = false ->
  process_video spawn self input_file w =
  (Raise e,
   extend w ["Processing: " +++ name input_file] [cmd self input_file]).
Proof.
  intros H He. run_job. rewrite H.
  destruct e; try discriminate He; reflexivity.
Qed.

Lemma job_recovered :
  Spec.recovered (spawn (List.length (launched w)) (cmd self input_file))
  = true ->
  exists (v : option PurePath) (line : string),
    process_video spawn self input_file w =
    (Ok v, extend w ["Processing: " +++ name input_file; line]
                  [cmd self input_file]).
Proof.
  destruct (spawn _ _) as [e|rc out err] eqn:H; cbn [Spec.recovered].
  - destruct e; try discriminate.
    unfold Str.decodable. destruct (Str.decode stderr) as [text|] eqn:Hd;
      [intros _|discriminate].
    exists None. eexists.
    run_job. rewrite H, Hd. cbn. now rewrite <- app_assoc.
  - destruct (Z.eqb_spec rc 0) as [->|Hrc].
    + intros _. eexists. eexists. now apply (job_exit_zero out err).
    + cbn. unfold Str.decodable.
      destruct (Str.decode err) as [text|] eqn:Hd; [intros _|discriminate].
      eexists. eexists. now apply (job_exit_nonzero rc out err text).
Qed.

(** Whatever the outcome, a job hands exactly one command to the
    operating system and leaves the file system alone. *)
Lemma job_launches_once :
  launched (snd (process_video spawn self input_file w)) =
  launched w ++ [cmd self input_file]
  /\ files (snd (process_video spawn self input_file w)) = files w.
Proof.
  run_job. destruct (spawn _ _) as [e|rc out err].
  - destruct e; cbn; auto. destruct (Str.decode stderr); cbn; auto.
  - destruct (rc =? 0); cbn; auto. destruct (Str.decode err); cbn; auto.
Qed.

End OneJob.

(* ===================================================================== *)
(** ** The constructor, the command and the output path *)
(* ===================================================================== *)

Section Construction.
Import Pathlib Py VideoPipeline.

Lemma init_inv (i o p : string) (w w' : World) (self : VideoPipeline.t) :
  __init__ i o p w = (Ok self, w') ->
  self = {| input_dir := Path i; output_dir := Path o; preset := p;
            config := _load_preset p |}
  /\ mkdir (Path o) true true w = (Ok tt, w').
Proof.
  unfold __init__, bind, ret.
  destruct (mkdir (Path o) true true w) as [[[]|e] w1]; [|discriminate].
  intros H; inversion H; auto.
Qed.

Lemma cmd_shape (self : VideoPipeline.t) (input_file : PurePath) :
  cmd self input_file =
  Spec.encoder_invocation (config self) (str input_file)
    (str (joinpath (output_dir self) (stem input_file +++ "_processed.mp4"))).
Proof. reflexivity. Qed.

(** C5: the output path of a job is output_dir / (input_stem +
    "_processed.mp4"): it is the last argument of the command and the
    value returned on success; when the input name has no slash it is the
    entry of that name directly under the output directory; and for the
    input clip.mov and the output directory out it is
    out/clip_processed.mp4. *)
Theorem C5_output_path :
  (forall (self : VideoPipeline.t) (input_file : PurePath),
      output_file self input_file =
      joinpath (output_dir self) (stem input_file +++ "_processed.mp4")
      /\ last (cmd self input_file) "" = str (output_file self input_file)
      /\ (forall spawn w out err,
             spawn (List.length (launched w)) (cmd self input_file)
             = Exits 0 out err ->
             fst (process_video spawn self input_file w) =
             Ok (Some (joinpath (output_dir self)
                                (stem input_file +++ "_processed.mp4"))))
      /\ (Str.free_of "/" (name input_file) ->
          output_file self input_file =
          {| root := root (output_dir self);
             tail := tail (output_dir self)
                     ++ [stem input_file +++ "_processed.mp4"] |}))
  /\ (forall (i p : string) (w w' : World) (self : VideoPipeline.t),
         __init__ i "out" p w = (Ok self, w') ->
         str (output_file self (Path "clip.mov")) = "out/clip_processed.mp4").
Proof.
  split.
  - intros self input_file. split; [reflexivity|]. split; [reflexivity|].
    split.
    + intros spawn w out err H.
      now rewrite (job_exit_zero spawn self input_file w out err H).
    + intros Hname. unfold output_file.
      destruct (processed_name_plain _ (stem_free _ Hname)) as (H1 & H2 & H3).
      now rewrite (joinpath_plain _ _ H1 H2 H3).
  - intros i p w w' self Hinit.
    destruct (init_inv _ _ _ _ _ _ Hinit) as [-> _]. reflexivity.
Qed.

(** C8: the captioning step returns the path it was given; it launches
    nothing and leaves the file system alone (it prints one notice). *)
Theorem C8_add_captions_passthrough
        (self : VideoPipeline.t) (video_file : PurePath) (w : World) :
  add_captions self video_file w =
  (Ok video_file,
   extend w ["Adding captions to: " +++ name video_file] []).
Proof.
  unfold add_captions, bind, ret. now rewrite print_extend.
Qed.

End Construction.

(* ===================================================================== *)
(** ** The batch *)
(* ===================================================================== *)

Section Batch.
Import Pathlib Py VideoPipeline.
Local Open Scope py_scope.

Variable unicode_lower : string -> string.
Variable spawn : nat -> list string -> launch_result.
Variable self : VideoPipeline.t.

Lemma body_recovered (f : PurePath) (w : World) :
  Spec.recovered (Spec.outcome spawn w 0 (cmd self f)) = true ->
  exists line,
    loop_body spawn self f w =
    (Ok tt, extend w ["Processing: " +++ name f; line] [cmd self f]).
Proof.
  unfold Spec.outcome. rewrite Nat.add_0_r. intros H.
  destruct (job_recovered spawn self f w H) as (v & line & E).
  exists line. unfold loop_body, bind. rewrite E. now destruct v.
Qed.

Lemma job_escapes (f : PurePath) (w : World) (e : exn) :
  Spec.escapes (Spec.outcome spawn w 0 (cmd self f)) = Some e ->
  process_video spawn self f w =
  (Raise e, extend w ["Processing: " +++ name f] [cmd self f]).
Proof.
  unfold Spec.outcome. rewrite Nat.add_0_r.
  destruct (spawn _ _) as [x|rc out err] eqn:H; cbn [Spec.escapes].
  - destruct x; intros E; try (inversion E; subst e;
      now apply job_launch_raises).
    unfold Str.decodable in E.
    destruct (Str.decode stderr) eqn:Hd; [discriminate|].
    inversion E; subst e.
    unfold process_video, bind, print, try_except, subprocess_run, decode,
      ret, raise, extend; cbn [files stdout launched].
    rewrite H, Hd. reflexivity.
  - destruct (Z.eqb_spec rc 0) as [->|Hrc]; [discriminate|]. cbn.
    unfold Str.decodable.
    destruct (Str.decode err) eqn:Hd; [discriminate|].
    intros E; inversion E; subst e.
    now apply (job_exit_undecodable spawn self f w rc out err).
Qed.

Lemma body_escapes (f : PurePath) (w : World) (e : exn) :
  Spec.escapes (Spec.outcome spawn w 0 (cmd self f)) = Some e ->
  loop_body spawn self f w =
  (Raise e, extend w ["Processing: " +++ name f] [cmd self f]).
Proof.
  intros H. unfold loop_body, bind. now rewrite (job_escapes f w e H).
Qed.

Lemma outcome_shift (w : World) lines c (i : nat) (f : PurePath) :
  Spec.outcome spawn (extend w lines [c]) i (cmd self f) =
  Spec.outcome spawn w (S i) (cmd self f).
Proof.
  unfold Spec.outcome, extend; cbn [launched].
  rewrite List.length_app. cbn [List.length]. f_equal. lia.
Qed.

(** When every job returns, the loop runs every job, in order. *)
Lemma loop_completes (l : list PurePath) :
  forall w : World,
    (forall i f, nth_error l i = Some f ->
                 Spec.recovered (Spec.outcome spawn w i (cmd self f)) = true) ->
    exists lines,
      for_each l (loop_body spawn self) w =
      (Ok tt, extend w lines (map (cmd self) l)).
Proof.
  induction l as [|f r IH]; intros w H.
  - exists []. cbn. now rewrite extend_nil.
  - destruct (body_recovered f w (H 0%nat f eq_refl)) as [line E].
    cbn [for_each]. unfold bind at 1. rewrite E.
    destruct (IH (extend w ["Processing: " +++ name f; line] [cmd self f]))
      as [lines E'].
    { intros i g Hg. rewrite outcome_shift. now apply (H (S i)). }
    rewrite E', extend_extend. eexists. reflexivity.
Qed.

(** The first job whose exception escapes ends the loop: the jobs after it
    are never started. *)
Lemma loop_aborts (pre : list PurePath) (f : PurePath) (post : list PurePath)
      (e : exn) :
  forall w : World,
    (forall i g, nth_error pre i = Some g ->
                 Spec.recovered (Spec.outcome spawn w i (cmd self g)) = true) ->
    Spec.escapes (Spec.outcome spawn w (List.length pre) (cmd self f))
    = Some e ->
    exists lines,
      for_each (pre ++ f :: post) (loop_body spawn self) w =
      (Raise e, extend w lines (map (cmd self) (pre ++ [f]))).
Proof.
  induction pre as [|g r IH]; intros w H He.
  - cbn [app for_each List.length map]. unfold bind.
    rewrite (body_escapes f w e He). eexists. reflexivity.
  - destruct (body_recovered g w (H 0%nat g eq_refl)) as [line E].
    cbn [app for_each]. unfold bind at 1. rewrite E.
    destruct (IH (extend w ["Processing: " +++ name g; line] [cmd self g]))
      as [lines E'].
    { intros i h Hh. rewrite outcome_shift. now apply (H (S i)). }
    { rewrite outcome_shift. exact He. }
    rewrite E', extend_extend. eexists. reflexivity.
Qed.

Lemma loop_cons (f : PurePath) (r : list PurePath) (w : World) :
  for_each (f :: r) (loop_body spawn self) w =
  match process_video spawn self f w with
  | (Ok _, w1) => for_each r (loop_body spawn self) w1
  | (Raise e, w1) => (Raise e, w1)
  end.
Proof.
  cbn [for_each]. unfold bind at 1. unfold loop_body at 1. unfold bind.
  destruct (process_video spawn self f w) as [[v|e] w1];
    [destruct v|]; reflexivity.
Qed.

(** Every command that the loop launches belongs to one of the files, in
    order. *)
Lemma loop_launches (l : list PurePath) :
  forall w : World,
  exists k : nat,
    launched (snd (for_each l (loop_body spawn self) w)) =
    launched w ++ map (cmd self) (firstn k l)
    /\ files (snd (for_each l (loop_body spawn self) w)) = files w.
Proof.
  induction l as [|f r IH]; intros w.
  - exists 0%nat. cbn. now rewrite app_nil_r.
  - rewrite loop_cons.
    destruct (job_launches_once spawn self f w) as [Hl Hf].
    destruct (process_video spawn self f w) as [[v|e] w1]; cbn [snd] in *.
    + destruct (IH w1) as [k [Hk Hfk]].
      exists (S k). cbn [firstn map].
      rewrite Hk, Hl, Hfk, Hf, <- app_assoc. now split.
    + exists 1%nat. cbn. now rewrite Hl.
Qed.

End Batch.

(* ===================================================================== *)
(** ** Selecting the input files *)
(* ===================================================================== *)

Section Selection.
Import Pathlib Py VideoPipeline.

Variable unicode_lower : string -> string.

Lemma is_video_entry (d : PurePath) (entry : string) :
  is_video unicode_lower (make_child d entry) =
  Spec.has_video_extension unicode_lower entry.
Proof.
  unfold is_video, Spec.has_video_extension, Str.mem.
  rewrite (suffix_make_child d {| root := ""; tail := [] |} entry).
  unfold make_child; cbn [root tail app].
  generalize (Str.lower unicode_lower (suffix {| root := ""; tail := [entry] |})).
  intros s. unfold video_extensions, Spec.formats.
  cbn [existsb String.append]. reflexivity.
Qed.

Lemma input_files_listing (self : VideoPipeline.t) (w : World)
      (names : list string) :
  OS.listdir (files w) (input_dir self) = inr names ->
  input_files unicode_lower self w =
  (Ok (map (make_child (input_dir self))
           (filter (Spec.has_video_extension unicode_lower) names)), w).
Proof.
  intros H. unfold input_files, bind, iterdir, ret. rewrite H.
  rewrite filter_map_swap. do 3 f_equal.
  apply filter_ext. intros entry. apply is_video_entry.
Qed.

Lemma input_files_world (self : VideoPipeline.t) (w : World) :
  snd (input_files unicode_lower self w) = w.
Proof.
  unfold input_files, bind, iterdir, ret.
  now destruct (OS.listdir (files w) (input_dir self)).
Qed.

Lemma listdir_stat (f : OS.fs) (p : PurePath) (es : list (string * OS.node)) :
  OS.stat f p = inr (OS.Dir es) -> OS.listdir f p = inr (map fst es).
Proof. unfold OS.listdir. now intros ->. Qed.

(** C3: the batch runner selects exactly the entries directly inside the
    input directory whose extension (the suffix of the entry name),
    compared without regard to case, is one of mp4, mkv, avi, mov, in
    listing order; entries below a subdirectory are never looked at.  For
    a directory with a.mp4, b.MKV, c.txt and d.avi the selected files are
    a.mp4, b.MKV and d.avi, and these are the inputs of the three jobs
    that run. *)
Theorem C3_selection_by_extension :
  (forall (self : VideoPipeline.t) (w : World) (es : list (string * OS.node)),
      OS.stat (files w) (input_dir self) = inr (OS.Dir es) ->
      input_files unicode_lower self w =
      (Ok (map (make_child (input_dir self))
               (filter (Spec.has_video_extension unicode_lower) (map fst es))),
       w))
  /\ input_files unicode_lower Examples.pipeline Examples.four_files =
     (Ok [Path "input/a.mp4"; Path "input/b.MKV"; Path "input/d.avi"],
      Examples.four_files)
  /\ map (fun c => nth 4 c "")
         (launched (snd (run unicode_lower Examples.always_succeeds
                             Examples.pipeline Examples.four_files))) =
     ["input/a.mp4"; "input/b.MKV"; "input/d.avi"].
Proof.
  split; [|split].
  - intros self w es H. now apply input_files_listing, listdir_stat.
  - reflexivity.
  - reflexivity.
Qed.

End Selection.

Lemma C3_selection_by_extension_witness :
  OS.stat (Py.files Examples.four_files)
          (VideoPipeline.input_dir Examples.pipeline)
  = inr (OS.Dir [("a.mp4", OS.File); ("b.MKV", OS.File);
                 ("c.txt", OS.File); ("d.avi", OS.File)])
  /\ VideoPipeline.input_files Examples.no_unicode Examples.pipeline
       Examples.four_files =
     (Py.Ok (map (Pathlib.make_child (VideoPipeline.input_dir Examples.pipeline))
               (filter (Spec.has_video_extension Examples.no_unicode)
                       (map fst [("a.mp4", OS.File); ("b.MKV", OS.File);
                                 ("c.txt", OS.File); ("d.avi", OS.File)]))),
      Examples.four_files).
Proof.
  split; [reflexivity|].
  apply (proj1 (C3_selection_by_extension Examples.no_unicode)
               Examples.pipeline Examples.four_files).
  reflexivity.
Defined.

Section SuffixOnly.
Import Pathlib Py VideoPipeline.

Lemma lower_char_dot (c : ascii) :
  Str.ascii_lower_char c = "."%char -> c = "."%char.
Proof.
  destruct c as [[] [] [] [] [] [] [] []]; vm_compute;
    intros H; (reflexivity || discriminate H).
Qed.

Lemma lower_char_not_dot (c x : ascii) :
  Str.ascii_lower_char c = x -> x <> "."%char -> c <> "."%char.
Proof. intros H Hx ->. apply Hx. now rewrite <- H. Qed.

(** A string that lower-cases to a dot and three characters other than a
    dot is itself a dot and three such characters. *)
Lemma ending_shape (e : string) (x1 x2 x3 : ascii) :
  Str.ascii_lower e = String "." (String x1 (String x2 (String x3 ""))) ->
  x1 <> "."%char -> x2 <> "."%char -> x3 <> "."%char ->
  exists r, e = String "." r /\ Str.free_of "." r /\ r <> "".
Proof.
  destruct e as [|c0 [|c1 [|c2 [|c3 [|c4 r]]]]]; cbn; try discriminate.
  intros H H1 H2 H3. inversion H as [[E0 E1 E2 E3]].
  rewrite E0. apply lower_char_dot in E0. subst c0.
  eexists. split; [reflexivity|]. split; [|discriminate].
  cbn. repeat split; eapply lower_char_not_dot; eauto.
Qed.

Lemma video_ending_shape (e : string) :
  In (Str.ascii_lower e) video_extensions ->
  (exists r, e = String "." r /\ Str.free_of "." r /\ r <> "")
  /\ Str.all_chars Str.is_ascii e = true.
Proof.
  intros H. split.
  - cbn in H. destruct H as [H|[H|[H|[H|[]]]]]; symmetry in H;
      apply ending_shape in H; auto; discriminate.
  - apply all_chars_map_lower.
    cbn in H. destruct H as [H|[H|[H|[H|[]]]]]; rewrite <- H; reflexivity.
Qed.

Lemma suffix_of_ending (d : PurePath) (pre r : string) :
  pre <> "" -> Str.free_of "." r -> r <> "" ->
  suffix (make_child d (pre +++ String "." r)) = String "." r.
Proof.
  intros Hpre Hfree Hr. unfold suffix, suffix_dot.
  rewrite name_make_child, (rfind_last _ pre r Hfree).
  unfold Str.len. rewrite string_length_app. cbn [String.length].
  assert (0 < Z.of_nat (String.length pre)).
  { destruct pre; [contradiction|]. cbn [String.length]. lia. }
  assert (0 < Z.of_nat (String.length r)).
  { destruct r; [contradiction|]. cbn [String.length]. lia. }
  destruct (Z.ltb_spec 0 (Z.of_nat (String.length pre))); [|lia].
  destruct (Z.ltb_spec (Z.of_nat (String.length pre))
              (Z.of_nat (String.length pre + S (String.length r)) - 1));
    [|lia].
  cbn [andb]. rewrite Nat2Z.id. apply drop_app_length.
Qed.

Lemma mem_In (s : string) (l : list string) : In s l -> Str.mem s l = true.
Proof.
  intros H. unfold Str.mem. apply existsb_exists.
  exists s. split; [assumption|apply String.eqb_refl].
Qed.

(** C9 (amended): enumeration looks at the suffix of an entry and never at
    its kind: every entry of the input directory, be it a regular file or
    a subdirectory, whose name is at least one character followed by an
    ending that is .mp4, .mkv, .avi or .mov up to ASCII case, is selected
    as a job. *)
Theorem C9_suffix_decides_selection
        (unicode_lower : string -> string)
        (self : VideoPipeline.t) (w : World)
        (es : list (string * OS.node)) (kind : OS.node)
        (pre ending : string) :
  OS.stat (files w) (input_dir self) = inr (OS.Dir es) ->
  In (pre +++ ending, kind) es ->
  pre <> "" ->
  In (Str.ascii_lower ending) video_extensions ->
  exists selected,
    input_files unicode_lower self w = (Ok selected, w)
    /\ In (make_child (input_dir self) (pre +++ ending)) selected.
Proof.
  intros Hstat Hin Hpre Hend.
  rewrite (input_files_listing unicode_lower self w _ (listdir_stat _ _ _ Hstat)).
  eexists. split; [reflexivity|].
  apply in_map, filter_In. split.
  - apply in_map_iff. now exists (pre +++ ending, kind).
  - rewrite <- (is_video_entry unicode_lower (input_dir self)).
    destruct (video_ending_shape ending Hend) as [(r & -> & Hfree & Hr) Hascii].
    unfold is_video.
    rewrite (suffix_of_ending _ pre r Hpre Hfree Hr).
    rewrite (lower_ascii _ _ Hascii). now apply mem_In.
Qed.

End SuffixOnly.

Lemma C9_suffix_decides_selection_witness :
  OS.stat (Py.files Examples.odd_entries)
          (VideoPipeline.input_dir Examples.pipeline)
  = inr (OS.Dir [(".mp4", OS.File);
                 ("clips" +++ ".MP4", OS.Dir [("x.txt", OS.File)])])
  /\ "clips" <> ""
  /\ exists selected,
      VideoPipeline.input_files Examples.no_unicode Examples.pipeline
        Examples.odd_entries = (Py.Ok selected, Examples.odd_entries)
      /\ In (Pathlib.make_child (VideoPipeline.input_dir Examples.pipeline)
               ("clips" +++ ".MP4")) selected.
Proof.
  split; [reflexivity|]. split; [discriminate|].
  apply (C9_suffix_decides_selection Examples.no_unicode Examples.pipeline
           Examples.odd_entries
           [(".mp4", OS.File); ("clips" +++ ".MP4", OS.Dir [("x.txt", OS.File)])]
           (OS.Dir [("x.txt", OS.File)]) "clips" ".MP4").
  - reflexivity.
  - right. left. reflexivity.
  - discriminate.
  - vm_compute. tauto.
Defined.

(** The entry named [.mp4] ends in .mp4 and yet is not selected: its name has
    no suffix. *)
Lemma C9_counterexample :
  OS.listdir (Py.files Examples.odd_entries)
             (VideoPipeline.input_dir Examples.pipeline)
  = inr [".mp4"; "clips.MP4"]
  /\ Spec.ends_with_video_extension ".mp4" = true
  /\ exists selected,
      VideoPipeline.input_files Examples.no_unicode Examples.pipeline
        Examples.odd_entries = (Py.Ok selected, Examples.odd_entries)
      /\ ~ In (Pathlib.make_child (VideoPipeline.input_dir Examples.pipeline)
                 ".mp4") selected.
Proof.
  split; [reflexivity|]. split; [reflexivity|].
  eexists. split; [reflexivity|].
  cbn. intros [H|[]]. discriminate H.
Qed.

(* ===================================================================== *)
(** ** [run] as a whole *)
(* ===================================================================== *)

Section RunFacts.
Import Pathlib Py VideoPipeline.

Variable unicode_lower : string -> string.
Variable spawn : nat -> list string -> launch_result.
Variable self : VideoPipeline.t.

Lemma run_unfold (w : World) (l : list PurePath) :
  input_files unicode_lower self w = (Ok l, w) ->
  run unicode_lower spawn self w = run_on spawn self l w.
Proof.
  intros H. unfold run. unfold bind at 1. now rewrite H.
Qed.

Lemma run_raises (w : World) (e : exn) :
  fst (input_files unicode_lower self w) = Raise e ->
  run unicode_lower spawn self w = (Raise e, w).
Proof.
  intros H. unfold run. unfold bind at 1.
  pose proof (input_files_world unicode_lower self w) as Hw.
  destruct (input_files unicode_lower self w) as [[l|e'] w']; cbn in *;
    [discriminate|]. congruence.
Qed.

Ltac after_found w1 :=
  unfold bind at 1; unfold print at 1;
  match goal with |- context [bind _ _ ?w0] => set (w1 := w0) end.

Lemma run_on_completes (l : list PurePath) (w : World) :
  (forall i f, nth_error l i = Some f ->
               Spec.recovered
                 (spawn (List.length (launched w) + i) (cmd self f)) = true) ->
  exists lines,
    run_on spawn self l w = (Ok tt, extend w lines (map (cmd self) l)).
Proof.
  intros H. destruct l as [|f r].
  - cbn [run_on map]. rewrite print_extend. eexists. reflexivity.
  - cbn [run_on]. after_found w1.
    destruct (loop_completes spawn self (f :: r) w1 H) as [lines E].
    unfold bind at 1. rewrite E, print_extend, extend_extend.
    eexists. unfold extend, w1; cbn [files stdout launched].
    rewrite <- !app_assoc, app_nil_r. reflexivity.
Qed.

Lemma run_on_aborts (pre : list PurePath) (f : PurePath)
      (post : list PurePath) (e : exn) (w : World) :
  (forall i g, nth_error pre i = Some g ->
               Spec.recovered
                 (spawn (List.length (launched w) + i) (cmd self g)) = true) ->
  Spec.escapes
    (spawn (List.length (launched w) + List.length pre) (cmd self f)) = Some e ->
  exists lines,
    run_on spawn self (pre ++ f :: post) w =
    (Raise e, extend w lines (map (cmd self) (pre ++ [f]))).
Proof.
  intros H He.
  assert (E0 : exists x r, pre ++ f :: post = x :: r)
    by (destruct pre; cbn; eauto).
  destruct E0 as (x & r & E0). unfold run_on. rewrite E0. rewrite <- E0.
  after_found w1.
  destruct (loop_aborts spawn self pre f post e w1 H He) as [lines E].
  unfold bind at 1. rewrite E.
  eexists. unfold extend, w1; cbn [files stdout launched].
  rewrite <- !app_assoc. reflexivity.
Qed.

Lemma run_on_launches (l : list PurePath) (w : World) :
  exists k : nat,
    launched (snd (run_on spawn self l w)) =
    launched w ++ map (cmd self) (firstn k l)
    /\ files (snd (run_on spawn self l w)) = files w.
Proof.
  destruct l as [|f r].
  - exists 0%nat. cbn. now rewrite app_nil_r.
  - remember (run_on spawn self (f :: r) w) as res eqn:E.
    cbn [run_on] in E. unfold bind at 1 in E. unfold print at 1 in E.
    match type of E with context [bind _ _ ?w0] => set (w1 := w0) in E end.
    destruct (loop_launches spawn self (f :: r) w1) as [k [Hk Hf]].
    exists k. unfold bind in E.
    destruct (for_each _ _ w1) as [[[]|e] w2]; unfold print in E; subst res;
      cbn [snd launched files] in *; (split; [exact Hk|exact Hf]).
Qed.

End RunFacts.

(* ===================================================================== *)
(** ** The batch: commands, failures and the exit status *)
(* ===================================================================== *)

Section BatchClaims.
Import Pathlib Py VideoPipeline.

Variable unicode_lower : string -> string.
Variable spawn : nat -> list string -> launch_result.

(** C1: for a pipeline built by the constructor from a preset name, the
    job for an input file hands exactly one command to the operating
    system, and that command has the fixed shape: the encoder, the
    hardware-acceleration hint cuda, the input path, the scale-then-pad
    filter for the preset's width and height, the video codec, bitrate and
    frame rate of the resolved preset, audio codec aac at 128k, the
    overwrite flag, and the output path
    <output_dir>/<input_stem>_processed.mp4.  The commands of a whole
    batch are the commands of this shape for the discovered files, in
    order, up to the point the batch reached. *)
Theorem C1_encoder_command_shape
        (i o p : string) (w0 w1 : World) (self : VideoPipeline.t) :
  __init__ i o p w0 = (Ok self, w1) ->
  let shape (input_file : PurePath) :=
    Spec.encoder_invocation (_load_preset p) (str input_file)
      (str (joinpath (Path o) (stem input_file +++ "_processed.mp4"))) in
  (forall (input_file : PurePath) (w : World),
      launched (snd (process_video spawn self input_file w)) =
      launched w ++ [shape input_file])
  /\ (forall (w : World) (discovered : list PurePath),
         input_files unicode_lower self w = (Ok discovered, w) ->
         exists k : nat,
           launched (snd (run unicode_lower spawn self w)) =
           launched w ++ map shape (firstn k discovered)).
Proof.
  intros Hinit shape.
  destruct (init_inv _ _ _ _ _ _ Hinit) as [Hself _].
  assert (Hshape : forall f, cmd self f = shape f)
    by (intros f; rewrite Hself; reflexivity).
  split.
  - intros input_file w.
    rewrite (proj1 (job_launches_once spawn self input_file w)).
    now rewrite Hshape.
  - intros w discovered H.
    rewrite (run_unfold unicode_lower spawn self w discovered H).
    destruct (run_on_launches spawn self discovered w) as [k [Hk _]].
    exists k. rewrite Hk. f_equal. apply map_ext. exact Hshape.
Qed.

(** C4 (the code at the failing input): two videos, the encoder exits
    with status 1 on the first one and its error stream is the single
    byte 0xff.  The job has failed, decoding the error text raises
    UnicodeDecodeError inside the handler, the exception leaves [run], and
    the second video is never processed. *)
Theorem C4_undecodable_error_text_aborts_batch :
  input_files unicode_lower Examples.pipeline Examples.two_videos =
  (Ok [Path "input/a.mp4"; Path "input/b.mp4"], Examples.two_videos)
  /\ Spec.job_failed
       (Examples.first_fails_bad_stderr 0
          (cmd Examples.pipeline (Path "input/a.mp4"))) = true
  /\ run unicode_lower Examples.first_fails_bad_stderr Examples.pipeline
         Examples.two_videos =
     (Raise UnicodeDecodeError,
      extend Examples.two_videos
        ["Found 2 video(s) to process" +++ newline; "Processing: a.mp4"]
        [cmd Examples.pipeline (Path "input/a.mp4")]).
Proof. repeat split. Qed.

(** C10: only [CalledProcessError] is handled in [process_video].  When
    the launch for a job raises any other exception (the encoder binary is
    absent, say), the exception leaves [process_video] and [run], and the
    files after that job are never processed; a non-zero exit status with
    a decodable error text, in contrast, makes [process_video] return
    [None]. *)
Theorem C10_other_exceptions_abort_batch :
  (forall (self : VideoPipeline.t) (f : PurePath) (w : World) (e : exn),
      spawn (List.length (launched w)) (cmd self f) = Fails e ->
      is_CalledProcessError e = false ->
      process_video spawn self f w =
      (Raise e, extend w ["Processing: " +++ name f] [cmd self f]))
  /\ (forall (self : VideoPipeline.t) (w : World)
             (pre : list PurePath) (f : PurePath) (post : list PurePath)
             (e : exn),
         input_files unicode_lower self w = (Ok (pre ++ f :: post), w) ->
         (forall i g, nth_error pre i = Some g ->
                      Spec.recovered
                        (spawn (List.length (launched w) + i) (cmd self g))
                      = true) ->
         spawn (List.length (launched w) + List.length pre) (cmd self f)
         = Fails e ->
         is_CalledProcessError e = false ->
         exists lines,
           run unicode_lower spawn self w =
           (Raise e, extend w lines (map (cmd self) (pre ++ [f]))))
  /\ (forall (self : VideoPipeline.t) (f : PurePath) (w : World)
             (rc : Z) (out err : list byte) (text : string),
         spawn (List.length (launched w)) (cmd self f) = Exits rc out err ->
         rc <> 0 -> Str.decode err = Some text ->
         fst (process_video spawn self f w) = Ok None).
Proof.
  split; [|split].
  - intros self f w e H He. now apply job_launch_raises.
  - intros self w pre f post e Hfiles Hpre Hf He.
    rewrite (run_unfold unicode_lower spawn self w _ Hfiles).
    apply run_on_aborts; [exact Hpre|].
    rewrite Hf. destruct e; try reflexivity. discriminate He.
  - intros self f w rc out err text H Hrc Hd.
    now rewrite (job_exit_nonzero spawn self f w rc out err text H Hrc Hd).
Qed.

End BatchClaims.

Lemma C1_encoder_command_shape_witness :
  VideoPipeline.__init__ "input" "output" "youtube" Examples.four_files
  = (Py.Ok {| VideoPipeline.input_dir := Pathlib.Path "input";
              VideoPipeline.output_dir := Pathlib.Path "output";
              VideoPipeline.preset := "youtube";
              VideoPipeline.config := Spec.youtube |},
     Examples.with_output Examples.four_files)
  /\ Py.launched
       (snd (VideoPipeline.process_video Examples.always_succeeds
               {| VideoPipeline.input_dir := Pathlib.Path "input";
                  VideoPipeline.output_dir := Pathlib.Path "output";
                  VideoPipeline.preset := "youtube";
                  VideoPipeline.config := Spec.youtube |}
               (Pathlib.Path "input/b.MKV")
               (Examples.with_output Examples.four_files)))
     = [ [ "ffmpeg"; "-hwaccel"; "cuda"; "-i"; "input/b.MKV"; "-vf";
           "scale=1080:1920:force_original_aspect_ratio=decrease,pad=1080:1920:(ow-iw)/2:(oh-ih)/2";
           "-c:v"; "h264_nvenc"; "-b:v"; "8M"; "-r"; "60";
           "-c:a"; "aac"; "-b:a"; "128k"; "-y";
           "output/b_processed.mp4" ] ].
Proof.
  split; [reflexivity|].
  apply (proj1 (C1_encoder_command_shape Examples.no_unicode
                  Examples.always_succeeds "input" "output" "youtube"
                  Examples.four_files (Examples.with_output Examples.four_files)
                  _ eq_refl)
               (Pathlib.Path "input/b.MKV")
               (Examples.with_output Examples.four_files)).
Defined.

Lemma C5_output_path_witness :
  Str.free_of "/" (Pathlib.name (Pathlib.Path "input/clip.mov"))
  /\ VideoPipeline.output_file Examples.pipeline (Pathlib.Path "input/clip.mov")
     = {| Pathlib.root := ""; Pathlib.tail := ["output"; "clip_processed.mp4"] |}
  /\ Pathlib.str
       (VideoPipeline.output_file
          {| VideoPipeline.input_dir := Pathlib.Path "input";
             VideoPipeline.output_dir := Pathlib.Path "out";
             VideoPipeline.preset := "tiktok";
             VideoPipeline.config := Spec.tiktok |}
          (Pathlib.Path "clip.mov"))
     = "out/clip_processed.mp4".
Proof.
  assert (H : Str.free_of "/" (Pathlib.name (Pathlib.Path "input/clip.mov")))
    by (cbn; repeat split; discriminate).
  split; [exact H|]. split.
  - apply (proj2 (proj2 (proj2
             (proj1 C5_output_path Examples.pipeline
                    (Pathlib.Path "input/clip.mov"))))).
    exact H.
  - apply (proj2 C5_output_path "input" "tiktok" Examples.empty_input
             (Py.set_files Examples.empty_input
                {| OS.top := OS.Dir [("input", OS.Dir []); ("out", OS.Dir [])];
                   OS.cwd := [] |})).
    reflexivity.
Defined.

Lemma C10_other_exceptions_abort_batch_witness :
  VideoPipeline.input_files Examples.no_unicode Examples.pipeline
    Examples.two_videos
  = (Py.Ok ([Pathlib.Path "input/a.mp4"] ++ Pathlib.Path "input/b.mp4" :: []),
     Examples.two_videos)
  /\ exists lines,
      VideoPipeline.run Examples.no_unicode Examples.second_denied
        Examples.pipeline Examples.two_videos
      = (Py.Raise Py.PermissionError,
         Py.extend Examples.two_videos lines
           (map (VideoPipeline.cmd Examples.pipeline)
                ([Pathlib.Path "input/a.mp4"] ++ [Pathlib.Path "input/b.mp4"]))).
Proof.
  split; [reflexivity|].
  apply (proj1 (proj2 (C10_other_exceptions_abort_batch Examples.no_unicode
                         Examples.second_denied))
               Examples.pipeline Examples.two_videos
               [Pathlib.Path "input/a.mp4"] (Pathlib.Path "input/b.mp4") []
               Py.PermissionError).
  - reflexivity.
  - intros [|[|i]] g H; cbn in H; try discriminate H.
    injection H as <-. reflexivity.
  - reflexivity.
  - reflexivity.
Defined.

(** A run that ends with a non-zero exit status: two videos are found and
    the encoder binary is absent, so the first launch raises
    FileNotFoundError, which nothing catches. *)
Lemma C7_counterexample :
  Script.script Examples.no_unicode Examples.binary_absent Examples.defaults []
    Examples.two_videos
  = (1, Py.extend (Examples.with_output Examples.two_videos)
          ["Found 2 video(s) to process" +++ VideoPipeline.newline;
           "Processing: a.mp4"]
          [VideoPipeline.cmd Examples.pipeline (Pathlib.Path "input/a.mp4")]).
Proof. reflexivity. Qed.

(* ===================================================================== *)
(** ** Facts about the file system *)
(* ===================================================================== *)

Section TreeFacts.
Import OS.

Lemma find_entry_app (nm : string) (es es' : list (string * node)) :
  find_entry nm (es ++ es') =
  match find_entry nm es with
  | Some n => Some n
  | None => find_entry nm es'
  end.
Proof.
  induction es as [|[k n] r IH]; cbn; [reflexivity|].
  destruct (String.eqb k nm); auto.
Qed.

Lemma find_update (nm key : string) (f : node -> node)
      (es : list (string * node)) :
  find_entry nm (update_entry key f es) =
  if String.eqb key nm then option_map f (find_entry nm es)
  else find_entry nm es.
Proof.
  induction es as [|[k n] r IH]; cbn.
  - now destruct (String.eqb key nm).
  - destruct (String.eqb_spec k key) as [->|Hk]; cbn.
    + destruct (String.eqb_spec key nm); reflexivity.
    + destruct (String.eqb_spec k nm) as [->|Hn].
      * destruct (String.eqb_spec key nm); [congruence|reflexivity].
      * exact IH.
Qed.

Lemma lookup_snoc (t : node) (l : list string) (c : string) :
  lookup t (l ++ [c]) =
  match lookup t l with
  | Some (Dir es) => find_entry c es
  | _ => None
  end.
Proof.
  revert t. induction l as [|a r IH]; intros t; cbn.
  - destruct t as [|es]; [reflexivity|]. now destruct (find_entry c es).
  - destruct t as [|es]; [reflexivity|].
    destruct (find_entry a es); auto.
Qed.

(** Adding a directory keeps every directory a directory. *)
Lemma add_dir_keeps_dirs (l : list string) :
  forall (t : node) (loc : list string) (nm : string) es,
    lookup t l = Some (Dir es) ->
    exists es', lookup (add_dir t loc nm) l = Some (Dir es').
Proof.
  induction l as [|c r IH]; intros t loc nm es H.
  - cbn in H. inversion H; subst t. destruct loc; cbn; eauto.
  - destruct t as [|es0]; [discriminate H|]. cbn in H.
    destruct (find_entry c es0) as [m|] eqn:Hm; [|discriminate H].
    destruct loc as [|c' r']; cbn.
    + rewrite find_entry_app, Hm. eauto.
    + rewrite find_update, Hm.
      destruct (String.eqb c' c); cbn; eauto.
Qed.

(** Adding a directory never makes a regular file appear. *)
Lemma add_dir_no_new_file (l : list string) :
  forall (t : node) (loc : list string) (nm : string),
    lookup (add_dir t loc nm) l = Some File -> lookup t l = Some File.
Proof.
  induction l as [|c r IH]; intros t loc nm H.
  - destruct t; [reflexivity|]. destruct loc; discriminate H.
  - destruct t as [|es0]; [discriminate H|].
    destruct loc as [|c' r']; cbn in H |- *.
    + rewrite find_entry_app in H.
      destruct (find_entry c es0) as [m|]; [exact H|].
      cbn in H. destruct (String.eqb nm c); [|discriminate H].
      destruct r; discriminate H.
    + rewrite find_update in H.
      destruct (find_entry c es0) as [m|];
        destruct (String.eqb c' c); cbn in H; eauto; discriminate H.
Qed.

(** The new directory is where it was asked for. *)
Lemma add_dir_new (loc : list string) :
  forall (t : node) (nm : string) es,
    lookup t loc = Some (Dir es) -> find_entry nm es = None ->
    lookup (add_dir t loc nm) (loc ++ [nm]) = Some (Dir []).
Proof.
  induction loc as [|c r IH]; intros t nm es H Hnew.
  - cbn in H. inversion H; subst t. cbn.
    rewrite find_entry_app, Hnew. cbn. now rewrite String.eqb_refl.
  - destruct t as [|es0]; [discriminate H|]. cbn in H.
    destruct (find_entry c es0) as [m|] eqn:Hm; [|discriminate H].
    cbn. rewrite find_update, Hm, String.eqb_refl. cbn. eauto.
Qed.

(** Resolution of a path in two parts. *)
Lemma walk_app (t : node) (a b : list string) :
  forall loc : list string,
    walk t loc (a ++ b) =
    match walk t loc a with
    | inr l => walk t l b
    | inl e => inl e
    end.
Proof.
  induction a as [|c r IH]; intros loc; cbn; [reflexivity|].
  destruct (lookup t loc) as [[|es]|]; auto.
Qed.

(** Resolution depends only on which locations are directories. *)
Lemma walk_mono (t t' : node) (comps : list string) :
  (forall l es, lookup t l = Some (Dir es) ->
                exists es', lookup t' l = Some (Dir es')) ->
  forall loc l, walk t loc comps = inr l -> walk t' loc comps = inr l.
Proof.
  intros Hdirs. induction comps as [|c r IH]; intros loc l; cbn; [auto|].
  destruct (lookup t loc) as [[|es]|] eqn:E; try discriminate.
  destruct (Hdirs _ _ E) as [es' ->]. apply IH.
Qed.



End TreeFacts.

Section MkdirFacts.
Import Pathlib.


(** What a successful [os.mkdir] has found and done. *)
Lemma os_mkdir_inv (f f' : OS.fs) (p : PurePath) :
  OS.mkdir f p = inr f' ->
  exists loc es,
    tail p = removelast (tail p) ++ [last (tail p) ""]
    /\ OS.walk (OS.top f) (OS.start f p) (removelast (tail p)) = inr loc
    /\ OS.lookup (OS.top f) loc = Some (OS.Dir es)
    /\ OS.plain (last (tail p) "")
    /\ OS.find_entry (last (tail p) "") es = None
    /\ f' = {| OS.top := OS.add_dir (OS.top f) loc (last (tail p) "");
               OS.cwd := OS.cwd f |}.
Proof.
  unfold OS.mkdir.
  destruct (tail p) as [|c r] eqn:Et.
  - destruct (OS.lookup _ _); discriminate.
  - assert (Hne : c :: r <> []) by discriminate.
    pose proof (app_removelast_last "" Hne) as Hsplit.
    revert Hsplit. generalize (removelast (c :: r)) (last (c :: r) "").
    intros pre nm Hsplit.
    destruct (OS.walk _ _ pre) as [e|loc]; [discriminate|].
    destruct (OS.lookup _ loc) as [[|es]|] eqn:El; try discriminate.
    destruct (String.eqb_spec nm ".."); [discriminate|].
    destruct (OS.find_entry nm es) eqn:Ef; [discriminate|].
    intros H; inversion H. exists loc, es. repeat split; auto.
Qed.

Lemma os_mkdir_keeps (f f' : OS.fs) (p : PurePath) :
  OS.mkdir f p = inr f' ->
  OS.cwd f' = OS.cwd f
  /\ (forall l es, OS.lookup (OS.top f) l = Some (OS.Dir es) ->
                   exists es', OS.lookup (OS.top f') l = Some (OS.Dir es'))
  /\ (forall l, OS.lookup (OS.top f') l = Some OS.File ->
                OS.lookup (OS.top f) l = Some OS.File).
Proof.
  intros H. destruct (os_mkdir_inv _ _ _ H) as (loc & es & _ & _ & _ & _ & _ & ->).
  cbn. split; [reflexivity|]. split.
  - intros l es0. apply add_dir_keeps_dirs.
  - intros l. apply add_dir_no_new_file.
Qed.

(** After a successful [os.mkdir] the path is a directory. *)
Lemma os_mkdir_creates (f f' : OS.fs) (p : PurePath) :
  OS.mkdir f p = inr f' -> OS.is_dir f' p = true.
Proof.
  intros H.
  destruct (os_mkdir_inv _ _ _ H) as (loc & es & Hsplit & Hw & Hl & Hp & Hn & ->).
  revert Hsplit Hw Hp Hn.
  generalize (removelast (tail p)) (last (tail p) ""). intros pre nm.
  intros Hsplit Hw Hp Hn.
  unfold OS.is_dir, OS.stat. cbn [OS.top OS.cwd].
  change (OS.start {| OS.top := _; OS.cwd := OS.cwd f |} p) with (OS.start f p).
  rewrite Hsplit, walk_app.
  rewrite (walk_mono (OS.top f) _ _
             (fun l es0 => add_dir_keeps_dirs l (OS.top f) loc nm es0) _ _ Hw).
  cbn [OS.walk].
  destruct (add_dir_keeps_dirs loc (OS.top f) loc nm es Hl) as [es' ->].
  destruct (String.eqb_spec nm ".."); [contradiction|].
  now rewrite (add_dir_new loc (OS.top f) _ es Hl Hn).
Qed.

(** [os.mkdir] on an existing directory reports that it exists. *)
Lemma os_mkdir_exists (f : OS.fs) (p : PurePath) :
  OS.is_dir f p = true -> OS.mkdir f p = inl OS.EEXIST.
Proof.
  unfold OS.is_dir, OS.stat, OS.mkdir.
  destruct (tail p) as [|c r] eqn:Et.
  - cbn [OS.walk]. destruct (OS.lookup _ _); [reflexivity|discriminate].
  - assert (Hne : c :: r <> []) by discriminate.
    rewrite (app_removelast_last "" Hne) at 1.
    generalize (removelast (c :: r)) (last (c :: r) ""). intros pre nm.
    rewrite walk_app.
    destruct (OS.walk _ _ pre) as [e|loc]; [discriminate|].
    cbn [OS.walk].
    destruct (OS.lookup _ loc) as [[|es]|] eqn:El; try discriminate.
    destruct (String.eqb_spec nm ".."); [reflexivity|].
    rewrite lookup_snoc, El.
    destruct (OS.find_entry nm es); [reflexivity|discriminate].
Qed.

(** *** [Path.mkdir] *)

Lemma grows_refl (w : Py.World) : Py.grows w w.
Proof. unfold Py.grows. repeat split; eauto. Qed.

Lemma grows_trans (w1 w2 w3 : Py.World) :
  Py.grows w1 w2 -> Py.grows w2 w3 -> Py.grows w1 w3.
Proof.
  intros (A1 & B1 & C1 & D1 & E1) (A2 & B2 & C2 & D2 & E2).
  unfold Py.grows. repeat split; try congruence.
  - intros l es H. destruct (D1 _ _ H) as [es' H']. eauto.
  - auto.
Qed.

Lemma mkdir_here_cases (p : PurePath) (ok : bool) (w : Py.World) :
  Py.mkdir_here p ok w =
  match OS.mkdir (Py.files w) p with
  | inr f' => (Py.Ok tt, Py.set_files w f')
  | inl OS.ENOENT => (Py.Raise Py.FileNotFoundError, w)
  | inl e =>
      if negb ok || negb (OS.is_dir (Py.files w) p)
      then (Py.Raise (Py.exn_of_errno e), w)
      else (Py.Ok tt, w)
  end.
Proof.
  unfold Py.mkdir_here, Py.try_except, Py.os_mkdir, Py.bind, Py.is_dir,
    Py.raise, Py.ret.
  destruct (OS.mkdir (Py.files w) p) as [[]|f']; cbn;
    try reflexivity; destruct ok, (OS.is_dir (Py.files w) p); reflexivity.
Qed.

Lemma mkdir_rev_cases (rt : string) (rtail : list string)
      (parents ok : bool) (w : Py.World) :
  Py.mkdir_rev rt rtail parents ok w =
  match OS.mkdir (Py.files w) {| root := rt; tail := rev rtail |} with
  | inl OS.ENOENT =>
      match rtail with
      | [] => (Py.Raise Py.FileNotFoundError, w)
      | _ :: up =>
          if negb parents then (Py.Raise Py.FileNotFoundError, w)
          else
            match Py.mkdir_rev rt up true true w with
            | (Py.Ok _, w1) =>
                Py.mkdir_here {| root := rt; tail := rev rtail |} ok w1
            | (Py.Raise e, w1) => (Py.Raise e, w1)
            end
      end
  | _ => Py.mkdir_here {| root := rt; tail := rev rtail |} ok w
  end.
Proof.
  rewrite mkdir_here_cases.
  destruct rtail as [|c up]; cbn [Py.mkdir_rev];
    unfold Py.try_except, Py.os_mkdir, Py.bind, Py.is_dir, Py.raise, Py.ret;
    destruct (OS.mkdir (Py.files w) _) as [[]|f']; cbn;
    try reflexivity;
    try (destruct ok, (OS.is_dir (Py.files w) _); reflexivity).
  destruct parents; reflexivity.
Qed.

Lemma mkdir_here_result (p : PurePath) (ok : bool) (w w' : Py.World)
      (r : Py.result unit) :
  Py.mkdir_here p ok w = (r, w') ->
  Py.grows w w' /\ (r = Py.Ok tt -> OS.is_dir (Py.files w') p = true).
Proof.
  rewrite mkdir_here_cases.
  destruct (OS.mkdir (Py.files w) p) as [e|f'] eqn:E.
  - assert (H0 : forall x : Py.result unit * Py.World,
               x = (r, w') -> snd x = w ->
               (fst x = Py.Ok tt -> OS.is_dir (Py.files w) p = true) ->
               Py.grows w w'
               /\ (r = Py.Ok tt -> OS.is_dir (Py.files w') p = true)).
    { intros x -> Hw Hr. cbn in Hw, Hr. subst w'.
      split; [apply grows_refl|exact Hr]. }
    destruct e; intros H; apply (H0 _ H); clear H0 H;
      try reflexivity; try discriminate;
      destruct ok, (OS.is_dir (Py.files w) p); cbn;
      try reflexivity; discriminate.
  - intros H; inversion H; subst r w'. clear H.
    destruct (os_mkdir_keeps _ _ _ E) as (Hc & Hd & Hf).
    split.
    + unfold Py.grows, Py.set_files; cbn. repeat split; auto.
    + intros _. cbn. now apply os_mkdir_creates with (f := Py.files w).
Qed.

Lemma mkdir_rev_result (rt : string) (rtail : list string) :
  forall (parents ok : bool) (w w' : Py.World) (r : Py.result unit),
    Py.mkdir_rev rt rtail parents ok w = (r, w') ->
    Py.grows w w'
    /\ (r = Py.Ok tt ->
        OS.is_dir (Py.files w') {| root := rt; tail := rev rtail |} = true).
Proof.
  induction rtail as [|c up IH]; intros parents ok w w' r;
    rewrite mkdir_rev_cases.
  - destruct (OS.mkdir _ _) as [[]|f'] eqn:E;
      try apply mkdir_here_result.
    intros H; inversion H. split; [apply grows_refl|discriminate].
  - destruct (OS.mkdir _ _) as [[]|f'] eqn:E;
      try apply mkdir_here_result.
    destruct parents; cbn [negb].
    + destruct (Py.mkdir_rev rt up true true w) as [[[]|e] w1] eqn:E1.
      * intros H. destruct (IH _ _ _ _ _ E1) as [G1 _].
        destruct (mkdir_here_result _ _ _ _ _ H) as [G2 Hd].
        split; [now apply grows_trans with w1|exact Hd].
      * intros H; inversion H; subst. destruct (IH _ _ _ _ _ E1) as [G1 _].
        split; [exact G1|discriminate].
    + intros H; inversion H. split; [apply grows_refl|discriminate].
Qed.

(** The recursion of [mkdir_rev] is the one on [self.parent], and without
    [parents] it is [mkdir_here]. *)
Lemma parent_rev (rt : string) (c : string) (up : list string) :
  parent {| root := rt; tail := rev (c :: up) |} =
  {| root := rt; tail := rev up |}.
Proof. unfold parent. cbn [root tail rev]. now rewrite removelast_last. Qed.

Lemma parent_self (p : PurePath) : parent p = p <-> tail p = [].
Proof.
  destruct p as [rt t]. unfold parent. cbn [root tail]. split.
  - intros H. inversion H as [E].
    destruct t as [|c r]; [reflexivity|].
    assert (Hne : c :: r <> []) by discriminate.
    apply (f_equal (@List.length string)) in E.
    rewrite (app_removelast_last "" Hne) in E at 2.
    rewrite List.length_app in E. cbn in E. lia.
  - now intros ->.
Qed.

Lemma mkdir_rev_no_parents (rt : string) (rtail : list string) (ok : bool)
      (w : Py.World) :
  Py.mkdir_rev rt rtail false ok w =
  Py.mkdir_here {| root := rt; tail := rev rtail |} ok w.
Proof.
  rewrite mkdir_rev_cases, mkdir_here_cases.
  destruct (OS.mkdir _ _) as [[]|f']; try reflexivity.
  now destruct rtail.
Qed.

(** An existing directory: nothing fails and nothing changes. *)
Lemma mkdir_rev_existing (rt : string) (rtail : list string)
      (parents : bool) (w : Py.World) :
  OS.is_dir (Py.files w) {| root := rt; tail := rev rtail |} = true ->
  Py.mkdir_rev rt rtail parents true w = (Py.Ok tt, w).
Proof.
  intros H. rewrite mkdir_rev_cases, (os_mkdir_exists _ _ H).
  now rewrite mkdir_here_cases, (os_mkdir_exists _ _ H), H.
Qed.

(** *** Making a path that can be made *)







End MkdirFacts.

(* ===================================================================== *)
(** ** The output directory *)
(* ===================================================================== *)

Section OutputDirectory.
Import Pathlib Py VideoPipeline.

Lemma path_rev_rev (p : PurePath) :
  {| root := root p; tail := rev (rev (tail p)) |} = p.
Proof. destruct p; cbn. now rewrite rev_involutive. Qed.

Lemma mkdir_result (p : PurePath) (w w' : World) :
  mkdir p true true w = (Ok tt, w') ->
  grows w w' /\ OS.is_dir (files w') p = true.
Proof.
  unfold mkdir. intros H.
  destruct (mkdir_rev_result _ _ _ _ _ _ _ H) as [G Hd].
  rewrite path_rev_rev in Hd. auto.
Qed.

Lemma mkdir_existing (p : PurePath) (w : World) :
  OS.is_dir (files w) p = true -> mkdir p true true w = (Ok tt, w).
Proof.
  intros H. unfold mkdir. apply mkdir_rev_existing. now rewrite path_rev_rev.
Qed.


Lemma init_mkdir (i o p : string) (w w' : World) :
  mkdir (Path o) true true w = (Ok tt, w') ->
  __init__ i o p w =
  (Ok {| input_dir := Path i; output_dir := Path o; preset := p;
         config := _load_preset p |}, w').
Proof. intros H. unfold __init__, bind. now rewrite H. Qed.



End OutputDirectory.


(* ===================================================================== *)
(** ** More on names: stems, suffixes and output paths *)
(* ===================================================================== *)

Section NameFacts.
Import Pathlib Py VideoPipeline.

Lemma append_assoc_str (a b c : string) : (a +++ b) +++ c = a +++ (b +++ c).
Proof. induction a as [|x a IH]; cbn; [reflexivity|now rewrite IH]. Qed.

Lemma append_cancel_l (s a b : string) : s +++ a = s +++ b -> a = b.
Proof. induction s as [|x s IH]; cbn; [auto|]. intros H; inversion H; auto. Qed.

Lemma append_cancel_r (t : string) :
  forall a b : string, a +++ t = b +++ t -> a = b.
Proof.
  induction a as [|x a IH]; intros [|y b] H; cbn in H.
  - reflexivity.
  - apply (f_equal String.length) in H. cbn in H.
    rewrite string_length_app in H. lia.
  - apply (f_equal String.length) in H. cbn in H.
    rewrite string_length_app in H. lia.
  - inversion H. f_equal. now apply IH.
Qed.

Lemma length_drop (n : nat) :
  forall s, String.length (Str.drop n s) = (String.length s - n)%nat.
Proof. induction n as [|n IH]; intros [|a r]; cbn; auto. Qed.

Lemma rfind_neg_free (c : ascii) (s : string) :
  Str.rfind c s < 0 -> Str.free_of c s.
Proof.
  induction s as [|a r IH]; cbn; [auto|].
  destruct (Z.leb_spec 0 (Str.rfind c r)) as [H|H]; [lia|].
  destruct (Ascii.eqb_spec a c); [lia|]. auto.
Qed.

(** At the position found by [rfind] stands the character looked for, and
    it does not occur after it. *)
Lemma rfind_spec (c : ascii) (s : string) :
  0 <= Str.rfind c s ->
  exists r, Str.drop (Z.to_nat (Str.rfind c s)) s = String c r
            /\ Str.free_of c r.
Proof.
  induction s as [|a r0 IH]; cbn [Str.rfind]; [lia|].
  destruct (Z.leb_spec 0 (Str.rfind c r0)) as [H|H].
  - intros _. destruct (IH H) as (r & E & F). exists r.
    replace (Z.to_nat (Str.rfind c r0 + 1)) with (S (Z.to_nat (Str.rfind c r0)))
      by lia.
    cbn [Str.drop]. auto.
  - destruct (Ascii.eqb_spec a c) as [->|]; [|lia].
    intros _. exists r0. split; [reflexivity|]. now apply rfind_neg_free.
Qed.

(** The suffix of a path is empty or a dot followed by at least one
    character, none of them a dot; in the second case the stem is not
    empty. *)
Lemma suffix_shape (p : PurePath) :
  (suffix p = "" /\ stem p = name p)
  \/ (exists r, suffix p = String "." r /\ r <> "" /\ Str.free_of "." r
                /\ stem p <> "").
Proof.
  unfold suffix, stem, suffix_dot.
  destruct (Z.ltb_spec 0 (Str.rfind "." (name p))) as [H0|H0]; cbn [andb];
    [|left; auto].
  destruct (Z.ltb_spec (Str.rfind "." (name p)) (Str.len (name p) - 1))
    as [H1|H1]; [|left; auto].
  right. destruct (rfind_spec "." (name p)) as (r & E & F); [lia|].
  exists r. split; [exact E|]. split; [|split; [exact F|]].
  - intros ->. apply (f_equal String.length) in E.
    rewrite length_drop in E. unfold Str.len in H1. cbn in E. lia.
  - destruct (name p) as [|a n]; [cbn in H0; lia|].
    destruct (Z.to_nat (Str.rfind "." (String a n))) eqn:En; [lia|].
    discriminate.
Qed.

Lemma stem_of_ending (d : PurePath) (pre r : string) :
  pre <> "" -> Str.free_of "." r -> r <> "" ->
  stem (make_child d (pre +++ String "." r)) = pre.
Proof.
  intros Hpre Hfree Hr. unfold stem, suffix_dot.
  rewrite name_make_child, (rfind_last _ pre r Hfree).
  unfold Str.len. rewrite string_length_app. cbn [String.length].
  assert (0 < Z.of_nat (String.length pre)).
  { destruct pre; [contradiction|]. cbn [String.length]. lia. }
  assert (0 < Z.of_nat (String.length r)).
  { destruct r; [contradiction|]. cbn [String.length]. lia. }
  destruct (Z.ltb_spec 0 (Z.of_nat (String.length pre))); [|lia].
  destruct (Z.ltb_spec (Z.of_nat (String.length pre))
              (Z.of_nat (String.length pre + S (String.length r)) - 1));
    [|lia].
  cbn [andb]. rewrite Nat2Z.id. apply take_app_length.
Qed.

Lemma name_output_file (self : VideoPipeline.t) (f : PurePath) :
  Str.free_of "/" (name f) ->
  output_file self f = make_child (output_dir self) (stem f +++ "_processed.mp4")
  /\ name (output_file self f) = stem f +++ "_processed.mp4".
Proof.
  intros H. unfold output_file.
  destruct (processed_name_plain _ (stem_free _ H)) as (H1 & H2 & H3).
  rewrite (joinpath_plain _ _ H1 H2 H3). split; [reflexivity|].
  apply name_make_child.
Qed.

(** X1: two input files are written to the same output path exactly when
    they have the same stem: a.mp4 and a.mkv collide, files with different
    stems never do. *)
Theorem X1_outputs_collide_iff_same_stem
        (self : VideoPipeline.t) (f g : PurePath) :
  Str.free_of "/" (name f) -> Str.free_of "/" (name g) ->
  (output_file self f = output_file self g <-> stem f = stem g).
Proof.
  intros Hf Hg. split.
  - intros E. apply (f_equal name) in E.
    rewrite (proj2 (name_output_file self f Hf)) in E.
    rewrite (proj2 (name_output_file self g Hg)) in E.
    now apply append_cancel_r in E.
  - intros E. unfold output_file. now rewrite E.
Qed.

(** X2: the output path of a job is never its input path, whatever the
    input and output directories are: the output name ends in
    _processed.mp4 where the input name has its suffix. *)
Theorem X2_output_is_not_the_input (self : VideoPipeline.t) (f : PurePath) :
  Str.free_of "/" (name f) ->
  name (output_file self f) <> name f /\ output_file self f <> f.
Proof.
  intros Hf.
  assert (Hn : name (output_file self f) <> name f).
  { rewrite (proj2 (name_output_file self f Hf)).
    rewrite <- (stem_suffix f). intros E. apply append_cancel_l in E.
    destruct (suffix_shape f) as [[Hs _]|(r & Hs & _)];
      rewrite Hs in E; discriminate E. }
  split; [exact Hn|]. intros E. apply Hn. now rewrite E.
Qed.

(** X3: every output file is itself a video by its extension: its suffix
    is .mp4, so a later run over the output directory selects it. *)
Theorem X3_outputs_are_selectable
        (unicode_lower : string -> string)
        (self : VideoPipeline.t) (f : PurePath) :
  Str.free_of "/" (name f) ->
  suffix (output_file self f) = ".mp4"
  /\ stem (output_file self f) = stem f +++ "_processed"
  /\ is_video unicode_lower (output_file self f) = true.
Proof.
  intros Hf. rewrite (proj1 (name_output_file self f Hf)).
  change "_processed.mp4" with ("_processed" +++ String "." "mp4").
  rewrite <- append_assoc_str.
  assert (Hpre : stem f +++ "_processed" <> "").
  { intros E. apply (f_equal String.length) in E.
    rewrite string_length_app in E. cbn in E. lia. }
  assert (Hfree : Str.free_of "." "mp4") by (cbn; repeat split; discriminate).
  assert (Hr : "mp4" <> "") by discriminate.
  pose proof (suffix_of_ending (output_dir self) _ "mp4" Hpre Hfree Hr) as Hs.
  split; [exact Hs|]. split.
  - exact (stem_of_ending (output_dir self) _ "mp4" Hpre Hfree Hr).
  - unfold is_video. rewrite Hs. reflexivity.
Qed.

(** X4: a selected file has a name that is a non-empty stem followed by a
    suffix made of a dot and at least one further character; names without
    a dot, names that only start with a dot and names that end in a dot are
    never selected. *)
Theorem X4_selected_names_have_stem_and_suffix
        (unicode_lower : string -> string) (f : PurePath) :
  is_video unicode_lower f = true ->
  stem f <> ""
  /\ name f = stem f +++ suffix f
  /\ exists r, suffix f = String "." r /\ r <> "" /\ Str.free_of "." r.
Proof.
  intros H.
  destruct (suffix_shape f) as [[Hs _]|(r & Hs & Hr & Hfree & Hstem)].
  - unfold is_video in H. rewrite Hs in H. discriminate H.
  - split; [exact Hstem|]. split; [symmetry; apply stem_suffix|].
    exists r. auto.
Qed.

End NameFacts.

Lemma X1_outputs_collide_iff_same_stem_witness :
  Str.free_of "/" (Pathlib.name (Pathlib.Path "input/a.mp4"))
  /\ Str.free_of "/" (Pathlib.name (Pathlib.Path "input/a.mkv"))
  /\ (VideoPipeline.output_file Examples.pipeline (Pathlib.Path "input/a.mp4")
      = VideoPipeline.output_file Examples.pipeline (Pathlib.Path "input/a.mkv")
      <-> Pathlib.stem (Pathlib.Path "input/a.mp4")
          = Pathlib.stem (Pathlib.Path "input/a.mkv")).
Proof.
  assert (H1 : Str.free_of "/" (Pathlib.name (Pathlib.Path "input/a.mp4")))
    by (cbn; repeat split; discriminate).
  assert (H2 : Str.free_of "/" (Pathlib.name (Pathlib.Path "input/a.mkv")))
    by (cbn; repeat split; discriminate).
  split; [exact H1|]. split; [exact H2|].
  exact (X1_outputs_collide_iff_same_stem Examples.pipeline _ _ H1 H2).
Defined.

Lemma X2_output_is_not_the_input_witness :
  Str.free_of "/" (Pathlib.name (Pathlib.Path "output/a_processed.mp4"))
  /\ Pathlib.name (VideoPipeline.output_file Examples.pipeline
                     (Pathlib.Path "output/a_processed.mp4"))
     <> Pathlib.name (Pathlib.Path "output/a_processed.mp4").
Proof.
  assert (H : Str.free_of "/"
                (Pathlib.name (Pathlib.Path "output/a_processed.mp4")))
    by (cbn; repeat split; discriminate).
  split; [exact H|].
  exact (proj1 (X2_output_is_not_the_input Examples.pipeline _ H)).
Defined.

Lemma X3_outputs_are_selectable_witness :
  Str.free_of "/" (Pathlib.name (Pathlib.Path "input/b.MKV"))
  /\ VideoPipeline.is_video Examples.no_unicode
       (VideoPipeline.output_file Examples.pipeline (Pathlib.Path "input/b.MKV"))
     = true.
Proof.
  assert (H : Str.free_of "/" (Pathlib.name (Pathlib.Path "input/b.MKV")))
    by (cbn; repeat split; discriminate).
  split; [exact H|].
  exact (proj2 (proj2 (X3_outputs_are_selectable Examples.no_unicode
                         Examples.pipeline _ H))).
Defined.

Lemma X4_selected_names_have_stem_and_suffix_witness :
  VideoPipeline.is_video Examples.no_unicode (Pathlib.Path "input/b.MKV") = true
  /\ Pathlib.stem (Pathlib.Path "input/b.MKV") <> "".
Proof.
  split; [reflexivity|].
  exact (proj1 (X4_selected_names_have_stem_and_suffix Examples.no_unicode
                  (Pathlib.Path "input/b.MKV") eq_refl)).
Defined.

(* ===================================================================== *)
(** ** What a batch prints *)
(* ===================================================================== *)

Section Reports.
Import Pathlib Py VideoPipeline.

Variable unicode_lower : string -> string.
Variable spawn : nat -> list string -> launch_result.
Variable self : VideoPipeline.t.

Lemma launched_extend_one (w : World) (lines : list string) (c : list string) :
  List.length (launched (extend w lines [c])) = S (List.length (launched w)).
Proof.
  unfold extend; cbn [launched]. rewrite List.length_app. cbn [List.length]. lia.
Qed.







End Reports.



(* ===================================================================== *)
(** ** More on one job and on presets *)
(* ===================================================================== *)

Section JobResults.
Import Pathlib Py VideoPipeline.

Variable spawn : nat -> list string -> launch_result.




(** X9: whatever preset string the constructor is given, the pipeline
    encodes to 1080x1920 with the codec h264_nvenc; its configuration is
    the tiktok or the youtube entry, so the frame rate is 30 or 60, and the
    filter argument of every command is the same fixed string. *)
Theorem X9_every_preset_is_vertical
        (i o p : string) (w w' : World) (self : VideoPipeline.t) :
  __init__ i o p w = (Ok self, w') ->
  (config self = Spec.tiktok \/ config self = Spec.youtube)
  /\ width (config self) = 1080
  /\ height (config self) = 1920
  /\ codec (config self) = "h264_nvenc"
  /\ forall f : PurePath,
       nth 6 (cmd self f) "" =
       "scale=1080:1920:force_original_aspect_ratio=decrease,pad=1080:1920:(ow-iw)/2:(oh-ih)/2".
Proof.
  intros Hinit. destruct (init_inv _ _ _ _ _ _ Hinit) as [Hself _].
  assert (Hc : config self = Spec.tiktok \/ config self = Spec.youtube).
  { rewrite Hself. cbn [config]. unfold _load_preset.
    rewrite dict_get_item. unfold presets. cbn [dict_item].
    destruct (String.eqb "tiktok" p); [left; reflexivity|].
    destruct (String.eqb "youtube" p); [right|left]; reflexivity. }
  split; [exact Hc|].
  unfold cmd. cbn [nth].
  destruct Hc as [-> | ->]; repeat split; reflexivity.
Qed.

End JobResults.



Lemma X9_every_preset_is_vertical_witness :
  VideoPipeline.__init__ "input" "output" "instagram" Examples.four_files
  = (Py.Ok Examples.pipeline_of_unknown_preset,
     Examples.with_output Examples.four_files)
  /\ VideoPipeline.height
       (VideoPipeline.config Examples.pipeline_of_unknown_preset) = 1920.
Proof.
  split; [reflexivity|].
  exact (proj1 (proj2 (proj2
           (X9_every_preset_is_vertical "input" "output" "instagram"
              Examples.four_files (Examples.with_output Examples.four_files)
              Examples.pipeline_of_unknown_preset eq_refl)))).
Defined.

(* ===================================================================== *)
(** ** The constructor and the script at their edges *)
(* ===================================================================== *)

Section Edges.
Import Pathlib Py VideoPipeline.

Variable unicode_lower : string -> string.
Variable spawn : nat -> list string -> launch_result.

(** [os.mkdir] on a path that names anything at all reports that it
    exists. *)
Lemma os_mkdir_taken (f : OS.fs) (p : PurePath) (n : OS.node) :
  OS.stat f p = inr n -> OS.mkdir f p = inl OS.EEXIST.
Proof.
  unfold OS.stat, OS.mkdir.
  destruct (tail p) as [|c r] eqn:Et.
  - cbn [OS.walk]. destruct (OS.lookup _ _); [reflexivity|discriminate].
  - assert (Hne : c :: r <> []) by discriminate.
    rewrite (app_removelast_last "" Hne) at 1.
    generalize (removelast (c :: r)) (last (c :: r) ""). intros pre nm.
    rewrite walk_app.
    destruct (OS.walk _ _ pre) as [e|loc]; [discriminate|].
    cbn [OS.walk].
    destruct (OS.lookup _ loc) as [[|es]|] eqn:El; try discriminate.
    destruct (String.eqb_spec nm ".."); [reflexivity|].
    rewrite lookup_snoc, El.
    destruct (OS.find_entry nm es); [reflexivity|discriminate].
Qed.

Lemma add_dir_keeps_files (l : list string) :
  forall (t : OS.node) (loc : list string) (nm : string),
    OS.lookup t l = Some OS.File ->
    OS.lookup (OS.add_dir t loc nm) l = Some OS.File.
Proof.
  induction l as [|c r IH]; intros t loc nm H.
  - cbn in H. inversion H; subst t. reflexivity.
  - destruct t as [|es0]; [discriminate H|]. cbn in H.
    destruct (OS.find_entry c es0) as [m|] eqn:Hm; [|discriminate H].
    destruct loc as [|c' r']; cbn.
    + now rewrite find_entry_app, Hm.
    + rewrite find_update, Hm.
      destruct (String.eqb c' c); cbn; auto.
Qed.

Lemma mkdir_here_keeps_files (p : PurePath) (ok : bool) (w w' : World)
      (r : result unit) :
  mkdir_here p ok w = (r, w') -> keeps_files w w'.
Proof.
  rewrite mkdir_here_cases.
  destruct (OS.mkdir (files w) p) as [e|f'] eqn:E.
  - assert (H0 : forall x : result unit * World,
               x = (r, w') -> snd x = w -> keeps_files w w').
    { intros x -> Hw. cbn in Hw. subst w'. intros l H. exact H. }
    destruct e; intros H; apply (H0 _ H); clear H0 H; try reflexivity;
      destruct ok, (OS.is_dir (files w) p); reflexivity.
  - intros H; inversion H; subst r w'.
    destruct (os_mkdir_inv _ _ _ E) as (loc & es & _ & _ & _ & _ & _ & ->).
    intros l Hl. cbn. now apply add_dir_keeps_files.
Qed.

Lemma mkdir_rev_keeps_files (rt : string) (rtail : list string) :
  forall (parents ok : bool) (w w' : World) (r : result unit),
    mkdir_rev rt rtail parents ok w = (r, w') -> keeps_files w w'.
Proof.
  induction rtail as [|c up IH]; intros parents ok w w' r;
    rewrite mkdir_rev_cases.
  - destruct (OS.mkdir _ _) as [[]|f'] eqn:E;
      try apply mkdir_here_keeps_files.
    intros H; inversion H; subst. intros l Hl. exact Hl.
  - destruct (OS.mkdir _ _) as [[]|f'] eqn:E;
      try apply mkdir_here_keeps_files.
    destruct parents; cbn [negb].
    + destruct (mkdir_rev rt up true true w) as [[[]|e] w1] eqn:E1.
      * intros H l Hl.
        apply (mkdir_here_keeps_files _ _ _ _ _ H).
        now apply (IH _ _ _ _ _ E1).
      * intros H; inversion H; subst. now apply (IH _ _ _ _ _ E1).
    + intros H; inversion H; subst. intros l Hl. exact Hl.
Qed.

Lemma init_mkdir_inv (i o p : string) (w w' : World)
      (r : result VideoPipeline.t) :
  __init__ i o p w = (r, w') ->
  exists r0, mkdir (Path o) true true w = (r0, w')
             /\ (forall e, r = Raise e -> r0 = Raise e).
Proof.
  unfold __init__, bind, ret.
  destruct (mkdir (Path o) true true w) as [[[]|e] w1]; intros H;
    inversion H; subst; eexists; split; try reflexivity.
  - discriminate.
  - intros e0 E. now inversion E.
Qed.

Lemma init_frame (i o p : string) (w w' : World)
      (r : result VideoPipeline.t) :
  __init__ i o p w = (r, w') -> grows w w' /\ keeps_files w w'.
Proof.
  intros H. destruct (init_mkdir_inv _ _ _ _ _ _ H) as (r0 & Hm & _).
  unfold mkdir in Hm. split.
  - now destruct (mkdir_rev_result _ _ _ _ _ _ _ Hm).
  - exact (mkdir_rev_keeps_files _ _ _ _ _ _ _ Hm).
Qed.

(** X10: the constructor only ever adds directories.  Whether it returns
    or raises, it prints nothing and launches nothing, every directory
    that existed is still a directory, every regular file is still a
    regular file, and no regular file has appeared. *)
Theorem X10_constructor_only_adds_directories
        (i o p : string) (w w' : World) (r : result VideoPipeline.t) :
  __init__ i o p w = (r, w') ->
  stdout w' = stdout w
  /\ launched w' = launched w
  /\ (forall l es, OS.lookup (OS.top (files w)) l = Some (OS.Dir es) ->
                   exists es', OS.lookup (OS.top (files w')) l
                               = Some (OS.Dir es'))
  /\ (forall l, OS.lookup (OS.top (files w)) l = Some OS.File <->
                OS.lookup (OS.top (files w')) l = Some OS.File).
Proof.
  intros H. destruct (init_frame _ _ _ _ _ _ H) as [(A & B & _ & D & E) K].
  repeat split; auto.
Qed.

(** X11: building the pipeline a second time over the same output
    directory succeeds and changes nothing. *)
Theorem X11_constructor_is_idempotent
        (i o p : string) (w w' : World) (self : VideoPipeline.t) :
  __init__ i o p w = (Ok self, w') ->
  __init__ i o p w' = (Ok self, w').
Proof.
  intros H. destruct (init_inv _ _ _ _ _ _ H) as [Hself Hm].
  destruct (mkdir_result _ _ _ Hm) as [_ Hd].
  rewrite (init_mkdir i o p w' w' (mkdir_existing _ _ Hd)).
  now rewrite Hself.
Qed.

(** X12: when the output path names a regular file, the constructor
    raises FileExistsError and leaves the world as it was. *)
Theorem X12_output_path_taken_by_a_file (i o p : string) (w : World) :
  OS.stat (files w) (Path o) = inr OS.File ->
  __init__ i o p w = (Raise FileExistsError, w).
Proof.
  intros H. unfold __init__, bind, mkdir.
  rewrite mkdir_rev_cases, path_rev_rev.
  rewrite (os_mkdir_taken _ _ _ H), mkdir_here_cases.
  rewrite (os_mkdir_taken _ _ _ H).
  unfold OS.is_dir. rewrite H. reflexivity.
Qed.

(** X13: when the input directory cannot be listed (it is missing, or it
    is a regular file), the script ends with exit status 1 after the
    constructor has run: the output directory has been made, nothing was
    printed and nothing was launched. *)
Theorem X13_unlistable_input_directory
        (parse_args : list string -> result Script.Args)
        (argv : list string) (args : Script.Args)
        (w w' : World) (self : VideoPipeline.t) (e : OS.errno) :
  parse_args argv = Ok args ->
  __init__ (Script.input args) (Script.output args) (Script.preset args) w
  = (Ok self, w') ->
  OS.listdir (files w') (input_dir self) = inl e ->
  run unicode_lower spawn self w' = (Raise (exn_of_errno e), w')
  /\ Script.script unicode_lower spawn parse_args argv w = (1, w')
  /\ OS.is_dir (files w') (Path (Script.output args)) = true
  /\ stdout w' = stdout w
  /\ launched w' = launched w.
Proof.
  intros Hargs Hinit Hl.
  assert (Hrun : run unicode_lower spawn self w'
                 = (Raise (exn_of_errno e), w')).
  { apply run_raises. unfold input_files, bind, iterdir. now rewrite Hl. }
  split; [exact Hrun|]. split.
  - unfold Script.script, Script.main, lift.
    unfold bind at 1. rewrite Hargs. unfold bind at 1. rewrite Hinit, Hrun.
    now destruct e.
  - destruct (init_inv _ _ _ _ _ _ Hinit) as [_ Hm].
    destruct (mkdir_result _ _ _ Hm) as [(A & B & _) Hd]. auto.
Qed.

End Edges.

Lemma X10_constructor_only_adds_directories_witness :
  VideoPipeline.__init__ "input" "out/deep" "tiktok" Examples.four_files
  = (Py.Ok {| VideoPipeline.input_dir := Pathlib.Path "input";
              VideoPipeline.output_dir := Pathlib.Path "out/deep";
              VideoPipeline.preset := "tiktok";
              VideoPipeline.config := Spec.tiktok |},
     Py.set_files Examples.four_files
       {| OS.top :=
            OS.Dir [("input",
                     OS.Dir [("a.mp4", OS.File); ("b.MKV", OS.File);
                             ("c.txt", OS.File); ("d.avi", OS.File)]);
                    ("out", OS.Dir [("deep", OS.Dir [])])];
          OS.cwd := [] |})
  /\ Py.stdout Examples.four_files = []
  /\ Py.launched Examples.four_files = [].
Proof.
  assert (H : VideoPipeline.__init__ "input" "out/deep" "tiktok"
                Examples.four_files
              = (Py.Ok {| VideoPipeline.input_dir := Pathlib.Path "input";
                          VideoPipeline.output_dir := Pathlib.Path "out/deep";
                          VideoPipeline.preset := "tiktok";
                          VideoPipeline.config := Spec.tiktok |},
                 Py.set_files Examples.four_files
                   {| OS.top :=
                        OS.Dir [("input",
                                 OS.Dir [("a.mp4", OS.File); ("b.MKV", OS.File);
                                         ("c.txt", OS.File); ("d.avi", OS.File)]);
                                ("out", OS.Dir [("deep", OS.Dir [])])];
                      OS.cwd := [] |})) by reflexivity.
  split; [exact H|].
  destruct (X10_constructor_only_adds_directories _ _ _ _ _ _ H)
    as (A & B & _).
  split; [symmetry; exact A|symmetry; exact B].
Defined.

Lemma X11_constructor_is_idempotent_witness :
  VideoPipeline.__init__ "input" "output" "tiktok" Examples.four_files
  = (Py.Ok Examples.pipeline, Examples.with_output Examples.four_files)
  /\ VideoPipeline.__init__ "input" "output" "tiktok"
       (Examples.with_output Examples.four_files)
     = (Py.Ok Examples.pipeline, Examples.with_output Examples.four_files).
Proof.
  split; [reflexivity|].
  apply (X11_constructor_is_idempotent "input" "output" "tiktok"
           Examples.four_files).
  reflexivity.
Defined.

Lemma X12_output_path_taken_by_a_file_witness :
  OS.stat (Py.files Examples.output_is_file) (Pathlib.Path "output")
  = inr OS.File
  /\ VideoPipeline.__init__ "input" "output" "tiktok" Examples.output_is_file
     = (Py.Raise Py.FileExistsError, Examples.output_is_file).
Proof.
  split; [reflexivity|].
  apply X12_output_path_taken_by_a_file. reflexivity.
Defined.

Lemma X13_unlistable_input_directory_witness :
  OS.listdir (Py.files (Examples.with_output Examples.no_input))
             (VideoPipeline.input_dir Examples.pipeline)
  = inl OS.ENOENT
  /\ Script.script Examples.no_unicode Examples.always_succeeds
       Examples.defaults [] Examples.no_input
     = (1, Examples.with_output Examples.no_input).
Proof.
  split; [reflexivity|].
  apply (proj1 (proj2
           (X13_unlistable_input_directory Examples.no_unicode
              Examples.always_succeeds Examples.defaults []
              {| Script.input := "input"; Script.output := "output";
                 Script.preset := "tiktok" |}
              Examples.no_input (Examples.with_output Examples.no_input)
              Examples.pipeline OS.ENOENT eq_refl eq_refl eq_refl))).
Defined.

(* ===================================================================== *)
(** ** More on selection *)
(* ===================================================================== *)

Section SelectionEdges.
Import Pathlib Py VideoPipeline.

Variable unicode_lower : string -> string.

Lemma NoDup_map_inj {A B} (g : A -> B) (l : list A) :
  (forall a b, g a = g b -> a = b) -> NoDup l -> NoDup (map g l).
Proof.
  intros Hg. induction 1 as [|a l Ha _ IH]; cbn; constructor; auto.
  intros Hin. apply in_map_iff in Hin as (b & E & Hb).
  apply Hg in E. now subst b.
Qed.

Lemma concat_snoc_inj (t : list string) (a b : string) :
  String.concat "/" (t ++ [a]) = String.concat "/" (t ++ [b]) -> a = b.
Proof.
  induction t as [|x t IH]; cbn [app String.concat]; [auto|].
  destruct (t ++ [a]) as [|y u] eqn:Ea; [now destruct t|].
  destruct (t ++ [b]) as [|z v] eqn:Eb; [now destruct t|].
  intros E. apply append_cancel_l in E. apply append_cancel_l in E. auto.
Qed.

(** Two entries of one directory with the same printed path are the same
    entry. *)
Lemma str_make_child_inj (d : PurePath) (a b : string) :
  str (make_child d a) = str (make_child d b) -> a = b.
Proof.
  unfold str, make_child; cbn [root tail].
  destruct (String.eqb (root d) "").
  - destruct (tail d ++ [a]) as [|y u] eqn:Ea; [now destruct (tail d)|].
    destruct (tail d ++ [b]) as [|z v] eqn:Eb; [now destruct (tail d)|].
    rewrite <- Ea, <- Eb. apply concat_snoc_inj.
  - intros E. apply append_cancel_l in E. now apply concat_snoc_inj in E.
Qed.

(** X15: when the entry names of the input directory are pairwise distinct,
    no file is selected twice and no two jobs of the batch are given the
    same command. *)
Theorem X15_no_file_is_processed_twice
        (self : VideoPipeline.t) (w : World) (names : list string) :
  OS.listdir (files w) (input_dir self) = inr names ->
  NoDup names ->
  exists l,
    input_files unicode_lower self w = (Ok l, w)
    /\ NoDup l
    /\ NoDup (map (cmd self) l).
Proof.
  intros Hl Hnd.
  rewrite (input_files_listing unicode_lower self w names Hl).
  eexists. split; [reflexivity|].
  pose proof (NoDup_filter (Spec.has_video_extension unicode_lower) Hnd) as Hf.
  split.
  - apply NoDup_map_inj; [|exact Hf].
    intros a b E. apply (f_equal name) in E.
    now rewrite !name_make_child in E.
  - rewrite map_map. apply NoDup_map_inj; [|exact Hf].
    intros a b E. apply (f_equal (fun c => nth 4 c "")) in E.
    cbn [cmd nth] in E. now apply str_make_child_inj in E.
Qed.


End SelectionEdges.

Lemma X15_no_file_is_processed_twice_witness :
  OS.listdir (Py.files Examples.four_files)
             (VideoPipeline.input_dir Examples.pipeline)
  = inr ["a.mp4"; "b.MKV"; "c.txt"; "d.avi"]
  /\ NoDup ["a.mp4"; "b.MKV"; "c.txt"; "d.avi"]
  /\ exists l,
      VideoPipeline.input_files Examples.no_unicode Examples.pipeline
        Examples.four_files = (Py.Ok l, Examples.four_files)
      /\ NoDup l
      /\ NoDup (map (VideoPipeline.cmd Examples.pipeline) l).
Proof.
  assert (H : NoDup ["a.mp4"; "b.MKV"; "c.txt"; "d.avi"]).
  { repeat constructor; cbn; intuition discriminate. }
  split; [reflexivity|]. split; [exact H|].
  exact (X15_no_file_is_processed_twice Examples.no_unicode Examples.pipeline
           Examples.four_files _ eq_refl H).
Defined.


(* ===================================================================== *)
(** ** Standard output that can fail, and the exit status *)
(* ===================================================================== *)

Section OutputFacts.
Import Pathlib Py VideoPipeline.

Variable unicode_lower : string -> string.
Variable spawn : nat -> list string -> launch_result.
Variable write : nat -> string -> option exn.

Lemma print_io_ok (s : string) (w : World) :
  (forall n, write n s = None) ->
  print_io write s w = (Ok tt, extend w [s] []).
Proof. intros H. unfold print_io. rewrite H. apply print_extend. Qed.

Lemma print_io_fails (s : string) (w : World) (e : exn) :
  write (List.length (stdout w)) s = Some e ->
  print_io write s w = (Raise e, w).
Proof. intros H. unfold print_io. now rewrite H. Qed.

Ltac io_step :=
  unfold loop_body_io, process_video_io, bind, try_except, subprocess_run,
    decode, ret, raise, print_io, print;
  cbn [files stdout launched].

Lemma body_report_io (self : VideoPipeline.t) (f : PurePath) (w : World) :
  Spec.recovered (spawn (List.length (launched w)) (cmd self f)) = true ->
  (forall n line,
      In line (Spec.job_report self f
                 (spawn (List.length (launched w)) (cmd self f))) ->
      write n line = None) ->
  loop_body_io spawn write self f w =
  (Ok tt,
   extend w (Spec.job_report self f
               (spawn (List.length (launched w)) (cmd self f)))
          [cmd self f]).
Proof.
  intros Hrec Hw.
  assert (H1 : forall n, write n ("Processing: " +++ name f) = None).
  { intros n. apply Hw. left. reflexivity. }
  revert Hrec Hw. unfold Spec.job_report.
  destruct (spawn (List.length (launched w)) (cmd self f))
    as [e|rc out err] eqn:Hs; cbn [Spec.recovered].
  - destruct e; try discriminate. unfold Str.decodable.
    destruct (Str.decode stderr) as [text|] eqn:Hd; [intros _|discriminate].
    intros Hw.
    assert (H2 : forall n, write n ("✗ Error processing " +++ name f
                                    +++ ": " +++ text) = None).
    { intros n. apply Hw. right. left. reflexivity. }
    io_step. rewrite H1. cbn [files stdout launched].
    rewrite Hs, Hd. cbn [files stdout launched]. rewrite H2.
    unfold extend. cbn [files stdout launched]. now rewrite <- app_assoc.
  - destruct (Z.eqb_spec rc 0) as [->|Hrc].
    + intros _ Hw.
      assert (H2 : forall n, write n ("✓ Completed: "
                                      +++ name (output_file self f)) = None).
      { intros n. apply Hw. right. left. reflexivity. }
      io_step. rewrite H1. cbn [files stdout launched].
      rewrite Hs. cbn [Z.eqb files stdout launched]. rewrite H2.
      unfold extend. cbn [files stdout launched]. now rewrite <- app_assoc.
    + cbn [orb]. unfold Str.decodable.
      destruct (Str.decode err) as [text|] eqn:Hd; [intros _|discriminate].
      intros Hw.
      assert (H2 : forall n, write n ("✗ Error processing " +++ name f
                                      +++ ": " +++ text) = None).
      { intros n. apply Hw. right. left. reflexivity. }
      io_step. rewrite H1. cbn [files stdout launched]. rewrite Hs.
      destruct (Z.eqb_spec rc 0) as [E|_]; [contradiction|].
      rewrite Hd. cbn [files stdout launched]. rewrite H2.
      unfold extend. cbn [files stdout launched]. now rewrite <- app_assoc.
Qed.

Lemma loop_report_io (self : VideoPipeline.t) (l : list PurePath) :
  forall w : World,
    (forall i f, nth_error l i = Some f ->
                 Spec.recovered
                   (spawn (List.length (launched w) + i) (cmd self f)) = true) ->
    (forall n line,
        In line (Spec.batch_report spawn self (List.length (launched w)) l) ->
        write n line = None) ->
    for_each l (loop_body_io spawn write self) w =
    (Ok tt,
     extend w (Spec.batch_report spawn self (List.length (launched w)) l)
            (map (cmd self) l)).
Proof.
  induction l as [|f r IH]; intros w H Hw.
  - cbn. now rewrite extend_nil.
  - pose proof (H 0%nat f eq_refl) as H0. rewrite Nat.add_0_r in H0.
    cbn [Spec.batch_report] in Hw.
    cbn [for_each]. unfold bind at 1.
    rewrite (body_report_io self f w H0)
      by (intros n line Hin; apply Hw, in_or_app; now left).
    rewrite IH.
    + now rewrite launched_extend_one, extend_extend.
    + intros i g Hg. rewrite launched_extend_one.
      replace (S (List.length (launched w)) + i)%nat
        with (List.length (launched w) + S i)%nat by lia.
      now apply (H (S i)).
    + intros n line Hin. rewrite launched_extend_one in Hin.
      apply Hw, in_or_app. now right.
Qed.

Lemma run_on_io_completes (self : VideoPipeline.t) (l : list PurePath)
      (w : World) :
  (forall i f, nth_error l i = Some f ->
               Spec.recovered
                 (spawn (List.length (launched w) + i) (cmd self f)) = true) ->
  (forall n line,
      In line (Spec.run_report spawn self (List.length (launched w)) l) ->
      write n line = None) ->
  run_on_io spawn write self l w =
  (Ok tt,
   extend w (Spec.run_report spawn self (List.length (launched w)) l)
          (map (cmd self) l)).
Proof.
  intros H Hw. destruct l as [|f r].
  - cbn [run_on_io Spec.run_report map]. apply print_io_ok.
    intros n. apply Hw. left. reflexivity.
  - unfold Spec.run_report in *. cbn [run_on_io].
    unfold bind at 1. rewrite print_io_ok
      by (intros n; apply Hw, in_or_app; left; left; reflexivity).
    unfold bind at 1. rewrite loop_report_io.
    + rewrite print_io_ok
        by (intros n; apply Hw, in_or_app; right; apply in_or_app; right;
            left; reflexivity).
      rewrite !extend_extend. unfold extend; cbn [files stdout launched].
      cbn [app]. now rewrite !app_nil_r.
    + intros i g Hg. unfold extend; cbn [launched]. rewrite app_nil_r.
      now apply H.
    + intros n line Hin. unfold extend in Hin; cbn [launched] in Hin.
      rewrite app_nil_r in Hin.
      apply Hw, in_or_app. right. apply in_or_app. now left.
Qed.

(** C7 (amended): when the command line is accepted, the output directory
    is there or can be made, the input directory can be listed, every
    launch either exits with status zero or ends in a failure whose error
    text decodes, and every line that the run prints is written to standard
    output without an error, the process exits with status 0 and every
    selected file was processed, however many of the jobs failed. *)
Theorem C7_exit_status_zero_when_jobs_return
        (parse_args : list string -> M Script.Args)
        (argv : list string) (w w0 w1 : World) (args : Script.Args)
        (self : VideoPipeline.t) (names : list string) :
  parse_args argv w = (Ok args, w0) ->
  __init__ (Script.input args) (Script.output args) (Script.preset args) w0
  = (Ok self, w1) ->
  OS.listdir (files w1) (input_dir self) = inr names ->
  let selected :=
    map (make_child (input_dir self))
        (filter (Spec.has_video_extension unicode_lower) names) in
  (forall i f, nth_error selected i = Some f ->
               Spec.recovered
                 (spawn (List.length (launched w1) + i) (cmd self f)) = true) ->
  (forall n line,
      In line (Spec.run_report spawn self (List.length (launched w1)) selected) ->
      write n line = None) ->
  fst (Script.script_io unicode_lower spawn write parse_args argv w) = 0
  /\ launched (snd (Script.script_io unicode_lower spawn write parse_args
                      argv w)) =
     launched w1 ++ map (cmd self) selected.
Proof.
  intros Hargs Hinit Hlist selected Hjobs Hwrite.
  pose proof (input_files_listing unicode_lower self w1 names Hlist) as Hfiles.
  assert (Em : Script.main_io unicode_lower spawn write parse_args argv w =
               (Ok tt,
                extend w1 (Spec.run_report spawn self
                             (List.length (launched w1)) selected)
                       (map (cmd self) selected))).
  { unfold Script.main_io.
    unfold bind at 1. rewrite Hargs. unfold bind at 1. rewrite Hinit.
    unfold run_io. unfold bind at 1. rewrite Hfiles.
    now apply run_on_io_completes. }
  unfold Script.script_io. rewrite Em. split; reflexivity.
Qed.

(** *** The two embeddings agree when every write succeeds *)

Hypothesis write_ok : forall n s, write n s = None.

Lemma print_io_total (s : string) (w : World) : print_io write s w = print s w.
Proof. unfold print_io. now rewrite write_ok. Qed.

Lemma process_video_io_total (self : VideoPipeline.t) (f : PurePath)
      (w : World) :
  process_video_io spawn write self f w = process_video spawn self f w.
Proof.
  unfold process_video_io, process_video, bind, try_except, subprocess_run,
    decode, ret, raise, print_io, print; cbn [files stdout launched].
  rewrite write_ok.
  destruct (spawn _ _) as [e|rc out err].
  - destruct e; try reflexivity.
    destruct (Str.decode stderr); [|reflexivity].
    cbn [files stdout launched]. now rewrite write_ok.
  - destruct (rc =? 0); cbn [files stdout launched].
    + now rewrite write_ok.
    + destruct (Str.decode err); [|reflexivity].
      cbn [files stdout launched]. now rewrite write_ok.
Qed.

Lemma for_each_ext {A} (g h : A -> M unit) :
  (forall x w, g x w = h x w) ->
  forall l w, for_each l g w = for_each l h w.
Proof.
  intros E. induction l as [|x r IH]; intros w; [reflexivity|].
  cbn [for_each]. unfold bind. rewrite E.
  destruct (h x w) as [[u|e] w']; [apply IH|reflexivity].
Qed.

Lemma run_io_total (self : VideoPipeline.t) (w : World) :
  run_io unicode_lower spawn write self w = run unicode_lower spawn self w.
Proof.
  unfold run_io, run. unfold bind.
  destruct (input_files unicode_lower self w) as [[l|e] w']; [|reflexivity].
  destruct l as [|f r]; cbn [run_on_io run_on]; [apply print_io_total|].
  unfold bind. rewrite print_io_total.
  destruct (print _ w') as [[u|e] w1]; [|reflexivity].
  rewrite (for_each_ext (loop_body_io spawn write self) (loop_body spawn self)).
  - destruct (for_each _ _ w1) as [[u'|e] w2]; [|reflexivity].
    apply print_io_total.
  - intros x w2. unfold loop_body_io, loop_body, bind.
    now rewrite process_video_io_total.
Qed.

(** With an output that never fails and a parser that has no effect, the
    script with [print_io] is the script with [print]. *)
Lemma script_io_total (parse_args : list string -> result Script.Args)
      (argv : list string) (w : World) :
  Script.script_io unicode_lower spawn write
    (fun a => lift (parse_args a)) argv w =
  Script.script unicode_lower spawn parse_args argv w.
Proof.
  unfold Script.script_io, Script.script, Script.main_io, Script.main.
  unfold bind, lift.
  destruct (parse_args argv) as [args|e]; [|reflexivity].
  destruct (__init__ _ _ _ w) as [[self|e] w1]; [|reflexivity].
  now rewrite run_io_total.
Qed.

End OutputFacts.

(** One of three jobs fails, standard output is UTF-8, and the exit status
    is 0. *)
Lemma C7_exit_status_zero_when_jobs_return_witness :
  Spec.job_failed
    (Examples.first_fails 0
       (VideoPipeline.cmd Examples.pipeline (Pathlib.Path "input/a.mp4"))) = true
  /\ fst (Script.script_io Examples.no_unicode Examples.first_fails
            Examples.utf8_stdout Examples.defaults_io [] Examples.four_files)
     = 0
  /\ Py.launched
       (snd (Script.script_io Examples.no_unicode Examples.first_fails
               Examples.utf8_stdout Examples.defaults_io []
               Examples.four_files))
     = Py.launched (Examples.with_output Examples.four_files)
       ++ map (VideoPipeline.cmd Examples.pipeline)
              (map (Pathlib.make_child
                      (VideoPipeline.input_dir Examples.pipeline))
                   (filter (Spec.has_video_extension Examples.no_unicode)
                           ["a.mp4"; "b.MKV"; "c.txt"; "d.avi"])).
Proof.
  split; [reflexivity|].
  apply (C7_exit_status_zero_when_jobs_return Examples.no_unicode
           Examples.first_fails Examples.utf8_stdout Examples.defaults_io []
           Examples.four_files Examples.four_files
           (Examples.with_output Examples.four_files)
           {| Script.input := "input"; Script.output := "output";
              Script.preset := "tiktok" |}
           Examples.pipeline ["a.mp4"; "b.MKV"; "c.txt"; "d.avi"]).
  - reflexivity.
  - reflexivity.
  - reflexivity.
  - intros [|[|[|[|i]]]] f H; cbn in H; try discriminate H;
      injection H as <-; reflexivity.
  - intros n line H. vm_compute in H.
    repeat (destruct H as [H|H]; [rewrite <- H; reflexivity|]).
    destruct H.
Defined.

(** The condition on standard output is needed: a video whose name is not
    UTF-8 cannot be announced on a UTF-8 standard output, so the first
    [print] of its job raises, nothing is launched, and the exit status
    is 1, although the encoder would have succeeded. *)
Lemma unencodable_name_ends_the_run :
  VideoPipeline.input_files Examples.no_unicode Examples.pipeline
    (Examples.with_output Examples.raw_name)
  = (Py.Ok [Pathlib.make_child (Pathlib.Path "input") (String "255" "clip.mp4")],
     Examples.with_output Examples.raw_name)
  /\ Examples.utf8_stdout 1 ("Processing: " +++ String "255" "clip.mp4")
     = Some (Py.OtherError "UnicodeEncodeError")
  /\ Script.script_io Examples.no_unicode Examples.always_succeeds
       Examples.utf8_stdout Examples.defaults_io [] Examples.raw_name
     = (1, Py.extend (Examples.with_output Examples.raw_name)
             ["Found 1 video(s) to process" +++ VideoPipeline.newline] []).
Proof. repeat split. Qed.
